(** * dyn: a dynamic-DNS agent (main.go), embedded and verified

    The program discovers the public IPv4 address of the host through a DNS
    query, fetches an "A" record from Cloudflare, and updates the record when
    the two addresses differ.  Everything here is translated from [main.go];
    the Go standard library ([net]), [viper] and [cloudflare-go] are modelled
    only as far as [main.go] calls them. *)

From Stdlib Require Import ZArith NArith Strings.Byte Strings.Ascii.
From stdpp Require Import base tactics option list strings gmap.

Open Scope string_scope.
Open Scope list_scope.

(** ** Package [net]: the parts of [net.IP] used by the program *)

Module net.

(** [type IP []byte].  A nil slice and an empty slice are both [[]]: the
    code only ever looks at [len]. *)
Definition IP := list byte.

#[global] Instance byte_eq_dec : EqDecision byte := Byte.byte_eq_dec.

Definition IPv4len : nat := 4.
Definition IPv6len : nat := 16.

Definition v4InV6Prefix : list byte :=
  [x00; x00; x00; x00; x00; x00; x00; x00; x00; x00; xff; xff].

(** [bytealg.Equal]. *)
Definition bytes_Equal (a b : list byte) : bool := bool_decide (a = b).

(** [ip[i:j]] for in-range bounds. *)
Definition slice (ip : list byte) (i j : nat) : list byte :=
  take (j - i) (drop i ip).

Definition isZeros (p : list byte) : bool :=
  forallb (fun b => bool_decide (b = x00)) p.

(** [func (ip IP) To4() IP]. *)
Definition To4 (ip : IP) : IP :=
  if bool_decide (length ip = IPv4len) then ip
  else if bool_decide (length ip = IPv6len)
          && isZeros (slice ip 0 10)
          && bool_decide (ip !! 10%nat = Some xff)
          && bool_decide (ip !! 11%nat = Some xff)
       then slice ip 12 16
       else [].

(** [ip] denotes an IPv4 address, in the 4-byte or the 16-byte form:
    [To4] gives its four bytes. *)
Definition isIPv4 (ip : IP) : Prop := length (To4 ip) = IPv4len.

(** [func (ip IP) Equal(x IP) bool]. *)
Definition Equal (ip x : IP) : bool :=
  if bool_decide (length ip = length x) then bytes_Equal ip x
  else if bool_decide (length ip = IPv4len) && bool_decide (length x = IPv6len)
       then bytes_Equal (slice x 0 12) v4InV6Prefix && bytes_Equal ip (slice x 12 16)
  else if bool_decide (length ip = IPv6len) && bool_decide (length x = IPv4len)
       then bytes_Equal (slice ip 0 12) v4InV6Prefix && bytes_Equal (slice ip 12 16) x
  else false.

(** [func IPv4(a, b, c, d byte) IP]: the 16-byte form of an IPv4 address. *)
Definition IPv4 (a b c d : byte) : IP := v4InV6Prefix ++ [a; b; c; d].

(** [uitoa] on a byte: decimal without leading zeros. *)
Definition digit (n : N) : string :=
  String (Ascii.ascii_of_N (48 + n)) EmptyString.

Definition uitoa (b : byte) : string :=
  let n := Byte.to_N b in
  if (n <? 10)%N then digit n
  else if (n <? 100)%N then digit (n / 10) +:+ digit (n mod 10)
  else digit (n / 100) +:+ digit ((n / 10) mod 10) +:+ digit (n mod 10).

Definition hexdigit (n : N) : string :=
  String (Ascii.ascii_of_N (if (n <? 10)%N then 48 + n else 87 + n)) EmptyString.

(** [hexString]: two lower-case hex digits per byte. *)
Fixpoint hexString (b : list byte) : string :=
  match b with
  | [] => ""
  | c :: b' => hexdigit (Byte.to_N c / 16) +:+ hexdigit (Byte.to_N c mod 16)
               +:+ hexString b'
  end.

Definition dotted (p4 : IP) : string :=
  match p4 with
  | [a; b; c; d] => uitoa a +:+ "." +:+ uitoa b +:+ "." +:+ uitoa c +:+ "." +:+ uitoa d
  | _ => ""
  end.

(** The two functions of [net] that the program calls and whose text
    formats lie outside the program: [ParseIP], and the IPv6 branch of
    [IP.String]. *)
Class Text := {
  ParseIP : string -> IP;
  ipv6String : IP -> string
}.

(** [func (ip IP) String() string]. *)
Definition String `{Text} (ip : IP) : string :=
  if bool_decide (length ip = 0%nat) then "<nil>"
  else let p4 := To4 ip in
       if bool_decide (length p4 = IPv4len) then dotted p4
       else if negb (bool_decide (length ip = IPv6len)) then "?" +:+ hexString ip
       else ipv6String ip.

(** [type IPAddr struct { IP IP; Zone string }]. *)
Record IPAddr := { IPAddr_IP : IP; Zone : string }.

End net.

(** Go's [error] values are kept as their messages. *)
Definition error := string.

(** A Go return of the shape [(T, error)]. *)
Inductive result (A : Type) : Type :=
| Ok (a : A)
| Err (e : error).
Arguments Ok {A} a.
Arguments Err {A} e.

(** What a Go call can do: return, or panic. *)
Inductive outcome (A : Type) : Type :=
| Return (a : A)
| Panic (msg : string).
Arguments Return {A} a.
Arguments Panic {A} msg.

(** ** Package [cf] (cloudflare-go): the record type and the client *)

Module cf.

(** [type DNSRecord struct]; times and the two [interface{}] fields are
    kept as opaque strings. *)
Record DNSRecord := {
  ID : string;
  Type_ : string;
  Name : string;
  Content : string;
  Proxiable : bool;
  Proxied : bool;
  TTL : Z;
  Locked : bool;
  ZoneID : string;
  ZoneName : string;
  CreatedOn : string;
  ModifiedOn : string;
  Data : string;
  Meta : string;
  Priority : Z
}.

(** The zero value [cf.DNSRecord{}]. *)
Definition zero : DNSRecord :=
  {| ID := ""; Type_ := ""; Name := ""; Content := ""; Proxiable := false;
     Proxied := false; TTL := 0; Locked := false; ZoneID := ""; ZoneName := "";
     CreatedOn := ""; ModifiedOn := ""; Data := ""; Meta := ""; Priority := 0 |}.

(** [cf.DNSRecord{Type: t}]. *)
Definition ofType (t : string) : DNSRecord :=
  {| ID := ""; Type_ := t; Name := ""; Content := ""; Proxiable := false;
     Proxied := false; TTL := 0; Locked := false; ZoneID := ""; ZoneName := "";
     CreatedOn := ""; ModifiedOn := ""; Data := ""; Meta := ""; Priority := 0 |}.

(** [r.Content = c] on a copy of [r]. *)
Definition setContent (r : DNSRecord) (c : string) : DNSRecord :=
  {| ID := ID r; Type_ := Type_ r; Name := Name r; Content := c;
     Proxiable := Proxiable r; Proxied := Proxied r; TTL := TTL r;
     Locked := Locked r; ZoneID := ZoneID r; ZoneName := ZoneName r;
     CreatedOn := CreatedOn r; ModifiedOn := ModifiedOn r; Data := Data r;
     Meta := Meta r; Priority := Priority r |}.

#[global] Instance DNSRecord_eq_dec : EqDecision DNSRecord.
Proof. solve_decision. Defined.

(** [type API struct]: the credentials the client was built with. *)
Record API := { APIKey : string; APIEmail : string }.

(** [func New(key, email string)], returning the client or an error. *)
Definition New (key email : string) : result API :=
  if bool_decide (key = "") || bool_decide (email = "")
  then Err "invalid credentials: key & email must not be empty"
  else Ok {| APIKey := key; APIEmail := email |}.

End cf.

(** ** Package [time] *)

Module time.

(** Durations are nanosecond counts; [ParseDuration]'s grammar lies outside
    the program. *)
Class Durations := { ParseDuration : string -> result Z }.

End time.

(** ** Package [viper]: configuration keys, defaults and the environment *)

Module viper.

Definition upper (c : Ascii.ascii) : Ascii.ascii :=
  let n := Ascii.N_of_ascii c in
  if ((97 <=? n) && (n <=? 122))%N then Ascii.ascii_of_N (n - 32) else c.

Definition lower (c : Ascii.ascii) : Ascii.ascii :=
  let n := Ascii.N_of_ascii c in
  if ((65 <=? n) && (n <=? 90))%N then Ascii.ascii_of_N (n + 32) else c.

Fixpoint mapString (f : Ascii.ascii -> Ascii.ascii) (s : string) : string :=
  match s with
  | EmptyString => EmptyString
  | String c s' => String (f c) (mapString f s')
  end.

Definition ToUpper := mapString upper.
Definition ToLower := mapString lower.

(** The registry: keys are lower-case dotted paths. *)
Record Viper := {
  automaticEnvApplied : bool;
  envPrefix : string;
  defaults : gmap string string;
  config : gmap string string;
  configFile : string
}.

Definition New : Viper :=
  {| automaticEnvApplied := false; envPrefix := ""; defaults := ∅;
     config := ∅; configFile := "" |}.

Definition AutomaticEnv (v : Viper) : Viper :=
  {| automaticEnvApplied := true; envPrefix := envPrefix v;
     defaults := defaults v; config := config v; configFile := configFile v |}.

Definition SetEnvPrefix (p : string) (v : Viper) : Viper :=
  {| automaticEnvApplied := automaticEnvApplied v; envPrefix := p;
     defaults := defaults v; config := config v; configFile := configFile v |}.

Definition SetDefault (key value : string) (v : Viper) : Viper :=
  {| automaticEnvApplied := automaticEnvApplied v; envPrefix := envPrefix v;
     defaults := <[ToLower key := value]> (defaults v);
     config := config v; configFile := configFile v |}.

(** What [ReadInConfig] finds on the search path: nothing readable (an
    error), or a file name with its parsed, flattened contents. *)
Definition ConfigSource := result (string * gmap string string).

Definition ReadInConfig (src : ConfigSource) (v : Viper) : result Viper :=
  match src with
  | Ok (file, kv) =>
      Ok {| automaticEnvApplied := automaticEnvApplied v;
            envPrefix := envPrefix v; defaults := defaults v;
            config := kv; configFile := file |}
  | Err e => Err e
  end.

Definition ConfigFileUsed (v : Viper) : string := configFile v.

(** [mergeWithEnvPrefix]. *)
Definition mergeWithEnvPrefix (v : Viper) (key : string) : string :=
  if bool_decide (envPrefix v = "") then ToUpper key
  else ToUpper (envPrefix v +:+ "_" +:+ key).

(** [getEnv]: empty values count as unset. *)
Definition getEnv (env : gmap string string) (key : string) : option string :=
  match env !! key with
  | Some val => if bool_decide (val = "") then None else Some val
  | None => None
  end.

(** [find]: environment, then configuration file, then defaults. *)
Definition find (env : gmap string string) (v : Viper) (lcaseKey : string)
  : option string :=
  match (if automaticEnvApplied v
         then getEnv env (mergeWithEnvPrefix v lcaseKey) else None) with
  | Some val => Some val
  | None =>
      match config v !! lcaseKey with
      | Some val => Some val
      | None => defaults v !! lcaseKey
      end
  end.

(** [GetString]: the zero value when the key is found nowhere. *)
Definition GetString (env : gmap string string) (v : Viper) (key : string)
  : string :=
  default "" (find env v (ToLower key)).

End viper.

(** ** The outside world and the program's observable behaviour *)

(** The network as the program reaches it: the resolver behind
    [net.Resolver.LookupIPAddr] and the three Cloudflare endpoints.  [Out] is
    whatever state the outside holds; every call may change it. *)
Class Network (Out : Type) := {
  LookupIPAddr (resolver host : string) : Out -> result (list net.IPAddr) * Out;
  ZoneIDByName (api : cf.API) (zoneName : string) : Out -> result string * Out;
  DNSRecords (api : cf.API) (zoneID : string) (rr : cf.DNSRecord)
    : Out -> result (list cf.DNSRecord) * Out;
  UpdateDNSRecord (api : cf.API) (zoneID recordID : string) (rr : cf.DNSRecord)
    : Out -> option error * Out
}.

Inductive Level := FatalLevel | ErrorLevel | WarnLevel | InfoLevel.

(** Everything the process does that can be seen from outside, in order. *)
Inductive event :=
| Tick (elapsed : Z)
| DNSQuery (resolver host : string)
| CallZoneIDByName (zoneName : string)
| CallDNSRecords (zoneID : string) (rr : cf.DNSRecord)
| CallUpdateDNSRecord (zoneID recordID : string) (rr : cf.DNSRecord)
| Log (lvl : Level) (msg : string).

#[global] Instance Level_eq_dec : EqDecision Level.
Proof. solve_decision. Defined.
#[global] Instance event_eq_dec : EqDecision event.
Proof. solve_decision. Defined.

Definition isUpdate (e : event) : bool :=
  match e with CallUpdateDNSRecord _ _ _ => true | _ => false end.

(** Number of calls of the provider's update operation in a trace. *)
Definition updates (t : list event) : nat :=
  length (filter (fun e => isUpdate e = true) t).

Section Program.

Context {Out : Type} `{Network Out} `{net.Text} `{time.Durations}.

Record world := { outside : Out; trace : list event }.

(** State passing over [world]. *)
Definition M (A : Type) : Type := world -> A * world.

Definition ret {A} (a : A) : M A := fun w => (a, w).

Definition bind {A B} (m : M A) (k : A -> M B) : M B :=
  fun w => let '(a, w') := m w in k a w'.

Definition emit (e : event) : M unit :=
  fun w => (tt, {| outside := outside w; trace := trace w ++ [e] |}).

(** Perform one call on the outside, recording it first. *)
Definition call {A} (e : event) (f : Out -> A * Out) : M A :=
  fun w => let '(a, s') := f (outside w) in
           (a, {| outside := s'; trace := trace w ++ [e] |}).

(** The four calls the program makes, each recorded with its arguments. *)
Definition netLookupIPAddr (resolver host : string) :=
  call (DNSQuery resolver host) (LookupIPAddr resolver host).

Definition apiZoneIDByName (a : cf.API) (zoneName : string) :=
  call (CallZoneIDByName zoneName) (ZoneIDByName a zoneName).

Definition apiDNSRecords (a : cf.API) (zoneID : string) (rr : cf.DNSRecord) :=
  call (CallDNSRecords zoneID rr) (DNSRecords a zoneID rr).

Definition apiUpdateDNSRecord (a : cf.API) (zoneID recordID : string)
           (rr : cf.DNSRecord) :=
  call (CallUpdateDNSRecord zoneID recordID rr)
       (UpdateDNSRecord a zoneID recordID rr).

Notation "x <- m ;; k" := (bind m (fun x => k))
  (at level 100, m at next level, right associativity).
Notation "m ;;; k" := (bind m (fun _ => k))
  (at level 100, right associativity).

(** *** [resolver] and [newPublicIP] *)

Record resolver := {
  addr : string;
  resolver_ : string;
  ip : list net.IPAddr
}.

(** [func (dns *resolver) lookup(ctx) error]: the updated receiver and the
    error. *)
Definition lookup (dns : resolver) : M (resolver * option error) :=
  r <- netLookupIPAddr (resolver_ dns) (addr dns) ;;
  match r with
  | Ok ips => ret ({| addr := addr dns; resolver_ := resolver_ dns; ip := ips |}, None)
  | Err err => ret (dns, Some ("DNS lookup error: " +:+ err))
  end.

(** [func newPublicIP(ctx) (net.IP, error)].  [dns.ip[0]] panics on an
    empty slice. *)
Definition newPublicIP : M (outcome (result net.IP)) :=
  let dns := {| addr := "myip.opendns.com";
                resolver_ := "resolver1.opendns.com"; ip := [] |} in
  r <- lookup dns ;;
  match r with
  | (_, Some err) => ret (Return (Err err))
  | (dns, None) =>
      match ip dns !! 0%nat with
      | Some a => ret (Return (Ok (net.IPAddr_IP a)))
      | None => ret (Panic "runtime error: index out of range")
      end
  end.

(** *** [dynIP] *)

Record dynIP := {
  api : cf.API;
  zoneName : string;
  record : cf.DNSRecord;
  aRecord : string;
  rIP : net.IP;
  dIP : net.IP
}.

(** The name the loop of [getRecord] compares with:
    [fmt.Sprintf("%s.%s", d.aRecord, d.zoneName)]. *)
Definition fqdn (d : dynIP) : string := aRecord d +:+ "." +:+ zoneName d.

(** [d.record = r; d.rIP = net.ParseIP(r.Content).To4()]. *)
Definition assign (d : dynIP) (r : cf.DNSRecord) : dynIP :=
  {| api := api d; zoneName := zoneName d; record := r;
     aRecord := aRecord d;
     rIP := net.To4 (net.ParseIP (cf.Content r)); dIP := dIP d |}.

(** The [for _, r := range recs] loop of [getRecord]: assign on the first
    record whose name is the wanted one, then [break]. *)
Fixpoint scan (d : dynIP) (recs : list cf.DNSRecord) : dynIP :=
  match recs with
  | [] => d
  | r :: recs' =>
      if bool_decide (cf.Name r = fqdn d) then assign d r else scan d recs'
  end.

(** [func (d *dynIP) getRecord() error]. *)
Definition getRecord (d : dynIP) : M (dynIP * option error) :=
  z <- apiZoneIDByName (api d) (zoneName d) ;;
  match z with
  | Err err => ret (d, Some err)
  | Ok zoneID =>
      let a := cf.ofType "A" in
      rs <- apiDNSRecords (api d) zoneID a ;;
      match rs with
      | Err err => ret (d, Some err)
      | Ok recs => ret (scan d recs, None)
      end
  end.

(** The record [Sync] sends: a copy of [d.record] with new [Content]. *)
Definition payload (d : dynIP) : cf.DNSRecord :=
  cf.setContent (record d) (net.String (dIP d)).

(** The two log lines of [Sync]. *)
Definition warnMsg (d : dynIP) : string :=
  "DNS A record (" +:+ net.String (rIP d)
  +:+ ") is out of sync with Dynamic IP (" +:+ net.String (dIP d) +:+ ")".

Definition infoMsg (d : dynIP) : string :=
  "DNS A record (" +:+ net.String (rIP d)
  +:+ ") has been synched with Dynamic IP (" +:+ net.String (dIP d) +:+ ")".

(** [func (d *dynIP) Sync() error]. *)
Definition Sync (d : dynIP) : M (option error) :=
  if net.Equal (dIP d) (rIP d) then ret None
  else
    emit (Log WarnLevel (warnMsg d)) ;;;
    let rr := payload d in
    err <- apiUpdateDNSRecord (api d) (cf.ZoneID (record d)) (cf.ID (record d)) rr ;;
    match err with
    | Some err => ret (Some err)
    | None => emit (Log InfoLevel (infoMsg d)) ;;; ret None
    end.

(** The event of the one call [Sync] makes when the addresses differ. *)
Definition updateCall (d : dynIP) : event :=
  CallUpdateDNSRecord (cf.ZoneID (record d)) (cf.ID (record d)) (payload d).

(** *** [main] *)

(** How [main] stops, or that it has not: [Blocked] is the loop waiting on
    the ticker's channel. *)
Inductive exit :=
| Fatal            (* log.Fatal: os.Exit(1) *)
| Returned         (* return from main *)
| Panicked (msg : string)
| Blocked.

Definition logIfErr (prefix : string) (err : option error) : M unit :=
  match err with
  | Some e => emit (Log InfoLevel (prefix +:+ e))
  | None => ret tt
  end.

(** The literal [dynIP{api: .., zoneName: .., aRecord: .., dIP: ..}] of the
    loop body; [record] and [rIP] start at their zero values. *)
Definition fresh (env : gmap string string) (v : viper.Viper) (a : cf.API)
           (dIP0 : net.IP) : dynIP :=
  {| api := a;
     zoneName := viper.GetString env v "dns.zone";
     record := cf.zero;
     aRecord := viper.GetString env v "dns.record";
     rIP := [];
     dIP := dIP0 |}.

(** The body of [for range time.NewTicker(tick).C]: [Some x] leaves [main]
    with [x], [None] falls off the end of the body. *)
Definition body (env : gmap string string) (v : viper.Viper) (a : cf.API)
  : M (option exit) :=
  r <- newPublicIP ;;
  match r with
  | Panic m => ret (Some (Panicked m))
  | Return (Err err) => emit (Log ErrorLevel err) ;;; ret (Some Returned)
  | Return (Ok dIP0) =>
      let dyn := fresh env v a dIP0 in
      r <- getRecord dyn ;;
      logIfErr "error getting remote ip: " (snd r) ;;;
      err <- Sync (fst r) ;;
      logIfErr "error syncing remote DNS: " err ;;;
      ret None
  end.

(** The loop, run on the ticks the channel delivers. *)
Fixpoint loop (env : gmap string string) (v : viper.Viper) (a : cf.API)
         (ticks : list Z) : M exit :=
  match ticks with
  | [] => ret Blocked
  | t :: ticks' =>
      emit (Tick t) ;;;
      r <- body env v a ;;
      match r with
      | Some x => ret x
      | None => loop env v a ticks'
      end
  end.

(** [time.NewTicker(d).C], first [n] ticks: the k-th tick is sent when
    k periods have elapsed. *)
Definition NewTicker (d : Z) (n : nat) : list Z :=
  map (fun k => d * Z.of_nat k)%Z (seq 1 n).

(** The registry as [main] sets it up before reading the file. *)
Definition setup : viper.Viper :=
  viper.SetDefault "record" "@"
    (viper.SetEnvPrefix "DYN" (viper.AutomaticEnv viper.New)).

(** [func main()], observed for the first [n] ticks. *)
Definition main (src : viper.ConfigSource) (env : gmap string string)
           (n : nat) : M exit :=
  match viper.ReadInConfig src setup with
  | Err err => emit (Log FatalLevel ("configuration: " +:+ err)) ;;; ret Fatal
  | Ok v =>
      emit (Log InfoLevel ("configuration: loading configuration file from '"
                           +:+ viper.ConfigFileUsed v +:+ "'")) ;;;
      match cf.New (viper.GetString env v "cloudflare.apiKey")
                   (viper.GetString env v "cloudflare.email") with
      | Err err => emit (Log FatalLevel err) ;;; ret Fatal
      | Ok a =>
          match time.ParseDuration (viper.GetString env v "tick") with
          | Err err => emit (Log FatalLevel err) ;;; ret Fatal
          | Ok tick =>
              if (tick <=? 0)%Z
              then ret (Panicked "non-positive interval for NewTicker")
              else loop env v a (NewTicker tick n)
          end
      end
  end.

End Program.

Arguments world : clear implicits.
Arguments M : clear implicits.

(** The events [w'] has beyond those of [w]. *)
Definition delta {Out} (w w' : world Out) : list event :=
  drop (length (trace w)) (trace w').

(** An action that only appends to the trace, and only events in [P]. *)
Definition grows {Out A} (P : event -> Prop) (m : M Out A) : Prop :=
  forall w, exists l, trace (snd (m w)) = trace w ++ l /\ Forall P l.

Definition notTick (e : event) : Prop :=
  match e with Tick _ => False | _ => True end.

Definition notUpdate (e : event) : Prop := isUpdate e = false.

Definition isLog (e : event) : Prop :=
  match e with Log _ _ => True | _ => False end.

(** One iteration as it shows in the trace: the tick received, then what
    the body did. *)
Definition segment (s : Z * list event) : list event := Tick (fst s) :: snd s.

(** ** Test doubles: a scripted resolver and an in-memory provider *)

Module Fake.

(** Decimal field of a dotted IPv4 address: one to three digits, no
    leading zero, at most 255. *)
Fixpoint digits (s : string) (acc : N) (n : nat) : option N :=
  match s with
  | EmptyString => if bool_decide (n = 0%nat) then None else Some acc
  | String c s' =>
      let k := Ascii.N_of_ascii c in
      if ((48 <=? k) && (k <=? 57))%N
      then if bool_decide (n = 1%nat) && (acc =? 0)%N then None
           else digits s' (acc * 10 + (k - 48))%N (Datatypes.S n)
      else None
  end.

Definition field (s : string) : option byte :=
  match digits s 0 0 with
  | Some n => if (String.length s <=? 3)%nat then Byte.of_N n else None
  | None => None
  end.

(** Split at every ["."]. *)
Fixpoint split (s : string) (cur : string) : list string :=
  match s with
  | EmptyString => [cur]
  | String c s' =>
      if bool_decide (c = "."%char) then cur :: split s' ""
      else split s' (cur +:+ String c EmptyString)
  end.

(** The dotted-decimal part of [net.ParseIP]; everything else is
    rejected with the nil address. *)
Definition parseIPv4 (s : string) : net.IP :=
  match split s "" with
  | [a; b; c; d] =>
      match field a, field b, field c, field d with
      | Some a, Some b, Some c, Some d => net.IPv4 a b c d
      | _, _, _, _ => []
      end
  | _ => []
  end.

#[global] Instance text : net.Text :=
  {| net.ParseIP := parseIPv4; net.ipv6String := fun ip => "?" +:+ net.hexString ip |}.

(** Durations of the form ["<n>s"] and ["<n>m"], in nanoseconds. *)
Definition parseDuration (s : string) : result Z :=
  match rev (String.list_ascii_of_string s) with
  | u :: ds =>
      match digits (String.string_of_list_ascii (rev ds)) 0 0 with
      | Some n =>
          if bool_decide (u = "s"%char) then Ok (Z.of_N n * 1000000000)%Z
          else if bool_decide (u = "m"%char) then Ok (Z.of_N n * 60000000000)%Z
          else Err ("time: unknown unit in duration " +:+ s)
      | None => Err ("time: invalid duration " +:+ s)
      end
  | [] => Err ("time: invalid duration " +:+ s)
  end.

#[global] Instance durations : time.Durations :=
  {| time.ParseDuration := parseDuration |}.

(** The outside: DNS answers still to be given, the provider's zones
    (name, identifier) and records, and whether updates are refused. *)
Record state := {
  answers : list (result (list net.IPAddr));
  zones : list (string * string);
  records : list cf.DNSRecord;
  refuse : option error
}.

Definition lookupIPAddr (resolver host : string) (s : state)
  : result (list net.IPAddr) * state :=
  match answers s with
  | a :: rest =>
      (a, {| answers := rest; zones := zones s; records := records s;
             refuse := refuse s |})
  | [] => (Err "i/o timeout", s)
  end.

Definition zoneIDByName (_ : cf.API) (name : string) (s : state)
  : result string * state :=
  match list_find (fun z => fst z = name) (zones s) with
  | Some (_, z) => (Ok (snd z), s)
  | None => (Err "Zone could not be found", s)
  end.

Definition dnsRecords (_ : cf.API) (zoneID : string) (rr : cf.DNSRecord)
           (s : state) : result (list cf.DNSRecord) * state :=
  if bool_decide (zoneID = "") then (Err "HTTP status 400: invalid zone", s)
  else (Ok (filter (fun r => cf.ZoneID r = zoneID ∧ cf.Type_ r = cf.Type_ rr)
                   (records s)), s).

Definition replace (zoneID recordID : string) (rr r : cf.DNSRecord)
  : cf.DNSRecord :=
  if bool_decide (cf.ZoneID r = zoneID ∧ cf.ID r = recordID)
  then cf.setContent r (cf.Content rr) else r.

Definition updateDNSRecord (_ : cf.API) (zoneID recordID : string)
           (rr : cf.DNSRecord) (s : state) : option error * state :=
  match refuse s with
  | Some e => (Some e, s)
  | None =>
      if bool_decide (Exists (fun r => cf.ZoneID r = zoneID ∧ cf.ID r = recordID)
                             (records s))
      then (None, {| answers := answers s; zones := zones s;
                     records := map (replace zoneID recordID rr) (records s);
                     refuse := refuse s |})
      else (Some "HTTP status 404: record not found", s)
  end.

#[global] Instance network : Network state :=
  {| LookupIPAddr := lookupIPAddr; ZoneIDByName := zoneIDByName;
     DNSRecords := dnsRecords; UpdateDNSRecord := updateDNSRecord |}.

(** Fixtures: zone [example.com] with three "A" records. *)
Definition A (id name content : string) : cf.DNSRecord :=
  {| cf.ID := id; cf.Type_ := "A"; cf.Name := name; cf.Content := content;
     cf.Proxiable := true; cf.Proxied := false; cf.TTL := 120;
     cf.Locked := false; cf.ZoneID := "z1"; cf.ZoneName := "example.com";
     cf.CreatedOn := ""; cf.ModifiedOn := ""; cf.Data := ""; cf.Meta := "";
     cf.Priority := 0 |}.

Definition answer (a b c d : byte) : result (list net.IPAddr) :=
  Ok [ {| net.IPAddr_IP := net.IPv4 a b c d; net.Zone := "" |} ].

Definition start (ans : list (result (list net.IPAddr)))
           (recs : list cf.DNSRecord) : world state :=
  {| outside := {| answers := ans; zones := [("example.com", "z1")];
                   records := recs; refuse := None |};
     trace := [] |}.

Definition client : cf.API := {| cf.APIKey := "k"; cf.APIEmail := "e@example.com" |}.

Definition file (kv : list (string * string)) : viper.ConfigSource :=
  Ok ("/etc/dyn/config.yaml", list_to_map kv).

End Fake.

(** ** Fixtures *)

Module Fixtures.

Import Fake.

(** A fresh [dynIP] for zone [example.com], as the loop body builds it. *)
Definition dyn0 (label : string) (discovered : net.IP) : dynIP :=
  {| api := client; zoneName := "example.com"; record := cf.zero;
     aRecord := label; rIP := []; dIP := discovered |}.

Definition recDyn : cf.DNSRecord := A "r1" "dyn.example.com" "198.51.100.5".
Definition recWww : cf.DNSRecord := A "r2" "www.example.com" "192.0.2.1".
Definition recDynDup : cf.DNSRecord := A "r3" "dyn.example.com" "192.0.2.77".
Definition recSub : cf.DNSRecord := A "r4" "home.sub.example.com" "192.0.2.2".
Definition recHomex : cf.DNSRecord := A "r5" "homex.example.com" "192.0.2.3".
Definition recHome : cf.DNSRecord := A "r6" "home.example.com" "192.0.2.4".

(** 203.0.113.7 as the resolver returns it (16 bytes) against a record
    holding the same address (4 bytes after [To4]). *)
Definition synced : dynIP :=
  assign (dyn0 "dyn" (net.IPv4 xcb x00 x71 x07))
         (A "r1" "dyn.example.com" "203.0.113.7").

(** 198.51.100.9 discovered, 198.51.100.5 recorded. *)
Definition drifted : dynIP :=
  assign (dyn0 "dyn" (net.IPv4 xc6 x33 x64 x09)) recDyn.

Definition config (kv : list (string * string)) : viper.ConfigSource :=
  file ([("cloudflare.apikey", "k"); ("cloudflare.email", "e@example.com");
         ("dns.zone", "example.com"); ("tick", "5m")] ++ kv).

Definition noEnv : gmap string string := ∅.

(** A provider that does not know the configured zone. *)
Definition noZone : world Fake.state :=
  {| outside := {| Fake.answers := [Fake.answer xc6 x33 x64 x09];
                   Fake.zones := [];
                   Fake.records := [recDyn];
                   Fake.refuse := None |};
     trace := [] |}.

(** The registry after [main] has read a file that sets [dns.record]. *)
Definition loaded : viper.Viper :=
  match viper.ReadInConfig (config [("dns.record", "dyn")]) setup with
  | Ok v => v
  | Err _ => setup
  end.

(** The registry after [main] has read a file without [dns.record]. *)
Definition loadedNoRecord : viper.Viper :=
  match viper.ReadInConfig (config []) setup with
  | Ok v => v
  | Err _ => setup
  end.

(** Two ticks against a provider whose record lags behind. *)
Definition driftRun : exit * world Fake.state :=
  main (config [("dns.record", "dyn")]) noEnv 2
       (start [answer xc6 x33 x64 x09; answer xc6 x33 x64 x09] [recWww; recDyn]).

(** One tick against a provider whose record is up to date. *)
Definition steadyRun : exit * world Fake.state :=
  main (config [("dns.record", "dyn")]) noEnv 1
       (start [answer xcb x00 x71 x07]
              [A "r1" "dyn.example.com" "203.0.113.7"]).

(** Two ticks against a provider that refuses every update. *)
Definition refusedRun : exit * world Fake.state :=
  main (config [("dns.record", "dyn")]) noEnv 2
       {| outside := {| Fake.answers := [answer xc6 x33 x64 x09;
                                         answer xc6 x33 x64 x09];
                        Fake.zones := [("example.com", "z1")];
                        Fake.records := [recDyn];
                        Fake.refuse := Some "HTTP status 500" |};
          trace := [] |}.

Definition isWarn (e : event) : bool :=
  match e with Log WarnLevel _ => true | _ => false end.

(** A record that holds 203.0.113.7, and a world whose resolver answers
    the same address. *)
Definition recSynced : cf.DNSRecord := A "r1" "dyn.example.com" "203.0.113.7".

Definition steady : world Fake.state :=
  start [answer xcb x00 x71 x07] [recWww; recSynced].

(** A world whose resolver answers 198.51.100.9 while the record holds
    198.51.100.5, with a provider that accepts or refuses the update. *)
Definition drifting (refusal : option error) : world Fake.state :=
  {| outside := {| Fake.answers := [answer xc6 x33 x64 x09];
                   Fake.zones := [("example.com", "z1")];
                   Fake.records := [recWww; recDyn];
                   Fake.refuse := refusal |};
     trace := [] |}.

(** 2001:db8::1, an address with no IPv4 form. *)
Definition ip6 : net.IP :=
  [x20; x01; x0d; xb8; x00; x00; x00; x00; x00; x00; x00; x00; x00; x00; x00; x01].

End Fixtures.

(** ** Further observations on traces *)

Definition isQuery (e : event) : bool :=
  match e with DNSQuery _ _ => true | _ => false end.

Definition isTick (e : event) : bool :=
  match e with Tick _ => true | _ => false end.

Definition notQuery (e : event) : Prop := isQuery e = false.

(** Number of DNS queries, and of ticks received, in a trace. *)
Definition queries (t : list event) : nat :=
  length (filter (fun e => isQuery e = true) t).

Definition ticksReceived (t : list event) : nat :=
  length (filter (fun e => isTick e = true) t).

(** The two calls [getRecord] may make. *)
Definition locateCall (e : event) : Prop :=
  match e with
  | CallZoneIDByName _ | CallDNSRecords _ _ => True
  | _ => False
  end.

(** The one query [newPublicIP] makes. *)
Definition myipQuery : event :=
  DNSQuery "resolver1.opendns.com" "myip.opendns.com".

(** What one run of the loop body may add to the trace: the query first,
    then no further query, no tick, and at most one update call. *)
Definition bodyShape (l : list event) : Prop :=
  exists l', l = myipQuery :: l'
             /\ Forall notQuery l' /\ Forall notTick l'
             /\ (updates l' <= 1)%nat.

(** A resolver that always answers 192.0.2.1 and a provider that refuses
    every call; the state counts the calls made. *)
Module Stub.

Definition lookupIPAddr (resolver host : string) (n : nat)
  : result (list net.IPAddr) * nat :=
  (Ok [ {| net.IPAddr_IP := net.IPv4 xc0 x00 x02 x01; net.Zone := "" |} ],
   Datatypes.S n).

Definition zoneIDByName (_ : cf.API) (name : string) (n : nat)
  : result string * nat :=
  (Err "HTTP status 403", Datatypes.S n).

Definition dnsRecords (_ : cf.API) (zoneID : string) (rr : cf.DNSRecord)
           (n : nat) : result (list cf.DNSRecord) * nat :=
  (Err "HTTP status 403", Datatypes.S n).

Definition updateDNSRecord (_ : cf.API) (zoneID recordID : string)
           (rr : cf.DNSRecord) (n : nat) : option error * nat :=
  (Some "HTTP status 403", Datatypes.S n).

#[global] Instance network : Network nat :=
  {| LookupIPAddr := lookupIPAddr; ZoneIDByName := zoneIDByName;
     DNSRecords := dnsRecords; UpdateDNSRecord := updateDNSRecord |}.

Definition start : world nat := {| outside := 0%nat; trace := [] |}.

End Stub.

(** ** The resolver behind [LookupIPAddr] *)

(** What one DNS exchange yields before package [net] turns it into the
    result of [LookupIPAddr]: a failure (unreachable, timed out,
    unparsable), or the address records of the answer, possibly none.
    [noSuchHost] is the text of the [*net.DNSError] that [net] builds for
    a name without addresses; it names the host and the server asked. *)
Class Exchange (Out : Type) := {
  exchange (resolver host : string) : Out -> result (list net.IPAddr) * Out;
  noSuchHost (host : string) : error
}.

(** [net.Resolver.LookupIPAddr] over the exchange: an answer without
    addresses is reported as the error "no such host", so a nil error
    always comes with at least one address. *)
Definition goLookupIPAddr {Out : Type} `{Exchange Out} (resolver host : string)
           (s : Out) : result (list net.IPAddr) * Out :=
  match exchange resolver host s with
  | (Ok [], s') => (Err (noSuchHost host), s')
  | r => r
  end.

(** A scripted exchange: the state is the list of outcomes still to come;
    the provider refuses every call. *)
Module Wire.

Definition state := list (result (list net.IPAddr)).

Definition next (resolver host : string) (s : state)
  : result (list net.IPAddr) * state :=
  match s with
  | r :: rest => (r, rest)
  | [] => (Err "i/o timeout", [])
  end.

#[global] Instance wire : Exchange state :=
  {| exchange := next;
     noSuchHost := fun host => "lookup " +:+ host +:+ ": no such host" |}.

#[global] Instance network : Network state :=
  {| LookupIPAddr := goLookupIPAddr;
     ZoneIDByName := fun _ _ s => (Err "HTTP status 403", s);
     DNSRecords := fun _ _ _ s => (Err "HTTP status 403", s);
     UpdateDNSRecord := fun _ _ _ _ s => (Some "HTTP status 403", s) |}.

Definition start (script : state) : world state :=
  {| outside := script; trace := [] |}.

End Wire.

(** ** Addresses: [To4] and [Equal] *)

Section Addresses.

Import net.

Lemma To4_short (ip : IP) : length ip = 4%nat -> To4 ip = ip.
Proof. intros Hl. unfold To4, IPv4len. by rewrite bool_decide_eq_true_2. Qed.

Lemma To4_long (ip : IP) :
  length ip <> 4%nat -> isIPv4 ip -> ip = v4InV6Prefix ++ To4 ip.
Proof.
  unfold isIPv4, To4, IPv4len, IPv6len. intros Hne.
  rewrite (bool_decide_eq_false_2 _ Hne).
  destruct (bool_decide (length ip = 16%nat)) eqn:H16; simpl; [|done].
  apply bool_decide_eq_true_1 in H16.
  do 17 (destruct ip as [|? ip]; simpl in H16; try discriminate).
  unfold isZeros, slice. simpl.
  repeat case_bool_decide; simpl; try done.
  intros _. simplify_eq. reflexivity.
Qed.

Lemma To4_idem (ip : IP) : isIPv4 ip -> To4 (To4 ip) = To4 ip.
Proof. intros Hv. by apply To4_short. Qed.

Lemma Equal_refl (ip : IP) : Equal ip ip = true.
Proof.
  unfold Equal, bytes_Equal.
  rewrite bool_decide_eq_true_2 by done. by apply bool_decide_eq_true_2.
Qed.

(** On IPv4 addresses in either form, [Equal] is equality of the four
    bytes. *)
Lemma Equal_To4 (a b : IP) :
  isIPv4 a -> isIPv4 b -> Equal a b = true <-> To4 a = To4 b.
Proof.
  intros Ha Hb.
  destruct (decide (length a = 4%nat)) as [La|La];
    destruct (decide (length b = 4%nat)) as [Lb|Lb].
  - rewrite (To4_short a La), (To4_short b Lb).
    unfold Equal, bytes_Equal. rewrite bool_decide_eq_true_2 by congruence.
    apply bool_decide_eq_true.
  - pose proof (To4_long b Lb Hb) as Eb. rewrite (To4_short a La).
    unfold isIPv4 in Hb. revert Eb Hb. generalize (To4 b) as b4. intros b4 -> Hb.
    do 5 (destruct a as [|? a]; simpl in La; try discriminate).
    do 5 (destruct b4 as [|? b4]; simpl in Hb; try discriminate).
    unfold Equal, bytes_Equal, slice, IPv4len, IPv6len. simpl.
    repeat case_bool_decide; simpl; try done; naive_solver.
  - pose proof (To4_long a La Ha) as Ea. rewrite (To4_short b Lb).
    unfold isIPv4 in Ha. revert Ea Ha. generalize (To4 a) as a4. intros a4 -> Ha.
    do 5 (destruct b as [|? b]; simpl in Lb; try discriminate).
    do 5 (destruct a4 as [|? a4]; simpl in Ha; try discriminate).
    unfold Equal, bytes_Equal, slice, IPv4len, IPv6len. simpl.
    repeat case_bool_decide; simpl; try done; naive_solver.
  - pose proof (To4_long a La Ha) as Ea. pose proof (To4_long b Lb Hb) as Eb.
    rewrite Ea at 1. rewrite Eb at 1.
    unfold Equal, bytes_Equal. rewrite !length_app.
    unfold isIPv4 in Ha, Hb. rewrite Ha, Hb.
    rewrite bool_decide_eq_true_2 by done.
    rewrite bool_decide_eq_true. split; [apply app_inv_head | congruence].
Qed.

(** The nil address equals no non-empty address. *)
Lemma Equal_nil (ip : IP) : ip <> [] -> Equal ip [] = false.
Proof.
  intros Hne. unfold Equal, bytes_Equal, IPv4len, IPv6len.
  destruct ip as [|b ip]; [done|]. simpl.
  repeat case_bool_decide; simpl; try done.
Qed.

End Addresses.

(** ** The reconciler: [Sync] *)

Section Reconciler.

Context {Out : Type} `{Network Out} `{net.Text}.

Lemma delta_app (w w' : world Out) (l : list event) :
  trace w' = trace w ++ l -> delta w w' = l.
Proof. intros E. unfold delta. rewrite E. apply drop_app_length. Qed.

Lemma delta_same (w : world Out) : delta w w = [].
Proof. apply delta_app. by rewrite app_nil_r. Qed.

Lemma Sync_equal (d : dynIP) (w : world Out) :
  net.Equal (dIP d) (rIP d) = true -> Sync d w = (None, w).
Proof. intros E. unfold Sync. by rewrite E. Qed.

(** When the addresses differ: the warning, the update call and, if the
    provider accepts it, the confirmation. *)
Lemma Sync_differ (d : dynIP) (w : world Out) :
  net.Equal (dIP d) (rIP d) = false ->
  let r := UpdateDNSRecord (api d) (cf.ZoneID (record d)) (cf.ID (record d))
                           (payload d) (outside w) in
  Sync d w =
    (fst r,
     {| outside := snd r;
        trace := trace w ++ [Log WarnLevel (warnMsg d); updateCall d]
                 ++ match fst r with
                    | None => [Log InfoLevel (infoMsg d)]
                    | Some _ => []
                    end |}).
Proof.
  intros E. unfold Sync. rewrite E.
  unfold bind, emit, apiUpdateDNSRecord, call, ret. simpl.
  destruct (UpdateDNSRecord _ _ _ _ _) as [[e|] s']; simpl;
    rewrite <- ?app_assoc; reflexivity.
Qed.

Lemma Sync_differ_delta (d : dynIP) (w : world Out) :
  net.Equal (dIP d) (rIP d) = false ->
  filter (fun e => isUpdate e = true) (delta w (snd (Sync d w))) = [updateCall d].
Proof.
  intros E. rewrite (Sync_differ d w E). simpl.
  erewrite delta_app; [|reflexivity].
  destruct (fst _); reflexivity.
Qed.

Lemma Sync_updates (d : dynIP) (w : world Out) :
  updates (delta w (snd (Sync d w)))
  = if net.Equal (dIP d) (rIP d) then 0%nat else 1%nat.
Proof.
  destruct (net.Equal (dIP d) (rIP d)) eqn:E.
  - rewrite (Sync_equal d w E). simpl. by rewrite delta_same.
  - unfold updates. by rewrite Sync_differ_delta.
Qed.

End Reconciler.

(** ** The record locator: the scan of [getRecord] *)

Section Locator.

Context {Out : Type} `{Network Out} `{net.Text}.

Lemma scan_find (d : dynIP) (recs : list cf.DNSRecord) :
  scan d recs =
    match list_find (fun r => cf.Name r = fqdn d) recs with
    | Some (_, r) => assign d r
    | None => d
    end.
Proof.
  induction recs as [|r recs IH]; simpl; [done|].
  case_bool_decide as Hn.
  - by rewrite decide_True.
  - rewrite decide_False by done. rewrite IH.
    by destruct (list_find _ recs) as [[j r']|].
Qed.

Lemma scan_first (d : dynIP) (recs : list cf.DNSRecord) (i : nat)
      (r : cf.DNSRecord) :
  recs !! i = Some r -> cf.Name r = fqdn d ->
  (forall j r', (j < i)%nat -> recs !! j = Some r' -> cf.Name r' <> fqdn d) ->
  scan d recs = assign d r.
Proof.
  intros Hi Hn Hfirst. rewrite scan_find.
  assert (list_find (fun r => cf.Name r = fqdn d) recs = Some (i, r)) as ->;
    [|done].
  apply list_find_Some. naive_solver.
Qed.

Lemma scan_none (d : dynIP) (recs : list cf.DNSRecord) :
  (forall r, r ∈ recs -> cf.Name r <> fqdn d) -> scan d recs = d.
Proof.
  intros Hno. rewrite scan_find.
  assert (list_find (fun r => cf.Name r = fqdn d) recs = None) as ->; [|done].
  apply list_find_None, Forall_forall. exact Hno.
Qed.

(** A record with another name is invisible to the scan. *)
Lemma scan_skip (d : dynIP) (pre post : list cf.DNSRecord) (r : cf.DNSRecord) :
  cf.Name r <> fqdn d -> scan d (pre ++ r :: post) = scan d (pre ++ post).
Proof.
  intros Hn. induction pre as [|p pre IH]; simpl.
  - by rewrite bool_decide_eq_false_2.
  - by rewrite IH.
Qed.

(** [getRecord] when both provider calls succeed. *)
Lemma getRecord_ok (d : dynIP) (w : world Out) (zoneID : string)
      (recs : list cf.DNSRecord) (s1 s2 : Out) :
  ZoneIDByName (api d) (zoneName d) (outside w) = (Ok zoneID, s1) ->
  DNSRecords (api d) zoneID (cf.ofType "A") s1 = (Ok recs, s2) ->
  getRecord d w =
    ((scan d recs, None),
     {| outside := s2;
        trace := trace w ++ [CallZoneIDByName (zoneName d);
                             CallDNSRecords zoneID (cf.ofType "A")] |}).
Proof.
  intros Hz Hr. unfold getRecord, bind, apiZoneIDByName, apiDNSRecords, call, ret.
  rewrite Hz. simpl. rewrite Hr. simpl. by rewrite <- app_assoc.
Qed.

(** [getRecord] when the zone lookup fails: the receiver is untouched. *)
Lemma getRecord_zone_error (d : dynIP) (w : world Out) (e : error) (s1 : Out) :
  ZoneIDByName (api d) (zoneName d) (outside w) = (Err e, s1) ->
  getRecord d w =
    ((d, Some e),
     {| outside := s1; trace := trace w ++ [CallZoneIDByName (zoneName d)] |}).
Proof.
  intros Hz. unfold getRecord, bind, apiZoneIDByName, call, ret.
  by rewrite Hz.
Qed.

(** [getRecord] when the listing fails: the receiver is untouched. *)
Lemma getRecord_list_error (d : dynIP) (w : world Out) (zoneID : string)
      (e : error) (s1 s2 : Out) :
  ZoneIDByName (api d) (zoneName d) (outside w) = (Ok zoneID, s1) ->
  DNSRecords (api d) zoneID (cf.ofType "A") s1 = (Err e, s2) ->
  getRecord d w =
    ((d, Some e),
     {| outside := s2;
        trace := trace w ++ [CallZoneIDByName (zoneName d);
                             CallDNSRecords zoneID (cf.ofType "A")] |}).
Proof.
  intros Hz Hr. unfold getRecord, bind, apiZoneIDByName, apiDNSRecords, call, ret.
  rewrite Hz. simpl. rewrite Hr. simpl. by rewrite <- app_assoc.
Qed.

End Locator.

(** ** Traces only grow *)

Section Traces.

Context {Out : Type} `{Network Out}.

Lemma grows_ret {A} (P : event -> Prop) (a : A) : grows (Out:=Out) P (ret a).
Proof. intros w. exists []. simpl. by rewrite app_nil_r. Qed.

Lemma grows_emit (P : event -> Prop) (e : event) :
  P e -> grows (Out:=Out) P (emit e).
Proof. intros He w. exists [e]. split; [done|]. by apply Forall_singleton. Qed.

Lemma grows_call {A} (P : event -> Prop) (e : event) (f : Out -> A * Out) :
  P e -> grows P (call e f).
Proof.
  intros He w. exists [e]. unfold call. destruct (f (outside w)).
  split; [done|]. by apply Forall_singleton.
Qed.

Lemma grows_bind {A B} (P : event -> Prop) (m : M Out A) (k : A -> M Out B) :
  grows P m -> (forall a, grows P (k a)) -> grows P (bind m k).
Proof.
  intros Hm Hk w. unfold bind. destruct (Hm w) as (l1 & E1 & F1).
  destruct (m w) as [a w1]. simpl in E1.
  destruct (Hk a w1) as (l2 & E2 & F2). exists (l1 ++ l2).
  rewrite E2, E1. split; [by rewrite app_assoc | by apply Forall_app].
Qed.

Lemma grows_delta {A} (P : event -> Prop) (m : M Out A) (w : world Out) :
  grows P m ->
  trace (snd (m w)) = trace w ++ delta w (snd (m w))
  /\ Forall P (delta w (snd (m w))).
Proof.
  intros Hm. destruct (Hm w) as (l & E & F). unfold delta. rewrite E.
  by rewrite drop_app_length.
Qed.

Lemma grows_weaken {A} (P Q : event -> Prop) (m : M Out A) :
  (forall e, P e -> Q e) -> grows P m -> grows Q m.
Proof.
  intros HPQ Hm w. destruct (Hm w) as (l & E & F). exists l.
  split; [done|]. eapply Forall_impl; eauto.
Qed.

Lemma filter_notUpdate (l : list event) :
  Forall notUpdate l -> filter (fun e => isUpdate e = true) l = [].
Proof.
  induction 1 as [|e l He _ IH]; [done|].
  rewrite filter_cons_False; [done|]. unfold notUpdate in He. congruence.
Qed.

End Traces.

(** Decompose an action built from [ret], [emit], [call] and [bind]. *)
Ltac grows_auto :=
  repeat first
    [ apply grows_ret | apply grows_emit; done | apply grows_call; done
    | apply grows_bind; [|intros ?]
    | match goal with
      | |- grows _ (match ?x with _ => _ end) => destruct x
      | |- grows _ (if ?x then _ else _) => destruct x
      | |- grows _ (let _ := _ in _) => cbv zeta
      end ].

(** ** The scheduler: [newPublicIP], the loop body and the loop *)

Section Scheduler.

Context {Out : Type} `{Network Out} `{net.Text} `{time.Durations}.

Lemma newPublicIP_error (w : world Out) (e : error) (s' : Out) :
  LookupIPAddr "resolver1.opendns.com" "myip.opendns.com" (outside w) = (Err e, s') ->
  newPublicIP w =
    (Return (Err ("DNS lookup error: " +:+ e)),
     {| outside := s';
        trace := trace w ++ [DNSQuery "resolver1.opendns.com" "myip.opendns.com"] |}).
Proof.
  intros E. unfold newPublicIP, lookup, bind, netLookupIPAddr, call, ret.
  simpl. by rewrite E.
Qed.

Lemma newPublicIP_answer (w : world Out) (ips : list net.IPAddr) (s' : Out) :
  LookupIPAddr "resolver1.opendns.com" "myip.opendns.com" (outside w) = (Ok ips, s') ->
  newPublicIP w =
    (match ips with
     | a :: _ => Return (Ok (net.IPAddr_IP a))
     | [] => Panic "runtime error: index out of range"
     end,
     {| outside := s';
        trace := trace w ++ [DNSQuery "resolver1.opendns.com" "myip.opendns.com"] |}).
Proof.
  intros E. unfold newPublicIP, lookup, bind, netLookupIPAddr, call, ret.
  simpl. rewrite E. simpl. by destruct ips.
Qed.

(** The body leaves [main] only by returning or panicking. *)
Lemma body_exit (env : gmap string string) (v : viper.Viper) (a : cf.API)
      (w : world Out) :
  fst (body env v a w) <> Some Blocked.
Proof.
  unfold body, bind. destruct (newPublicIP w) as [[[ip0|e]|m] w1]; simpl; try done.
  destruct (getRecord _ w1) as [r w2]. simpl.
  destruct (logIfErr _ _ w2) as [u w3].
  destruct (Sync _ w3) as [err w4].
  by destruct (logIfErr _ err w4).
Qed.

(** Ticks that leave the loop waiting can be followed by more ticks. *)
Lemma loop_app (env : gmap string string) (v : viper.Viper) (a : cf.API)
      (pre rest : list Z) (w w1 : world Out) :
  loop env v a pre w = (Blocked, w1) ->
  loop env v a (pre ++ rest) w = loop env v a rest w1.
Proof.
  revert w. induction pre as [|t pre IH]; intros w; simpl.
  - unfold ret. by intros [= ->].
  - unfold bind. simpl.
    pose proof (body_exit env v a
                  {| outside := outside w; trace := trace w ++ [Tick t] |}) as Hx.
    destruct (body env v a _) as [[x|] w2]; [|apply IH].
    unfold ret. intros [= -> ->]. done.
Qed.

Lemma grows_newPublicIP : grows (Out:=Out) notUpdate newPublicIP.
Proof. unfold newPublicIP, lookup, netLookupIPAddr. grows_auto. Qed.

Lemma grows_getRecord (d : dynIP) : grows (Out:=Out) notUpdate (getRecord d).
Proof. unfold getRecord, apiZoneIDByName, apiDNSRecords. grows_auto. Qed.

Lemma grows_logIfErr (prefix : string) (err : option error) :
  grows (Out:=Out) notUpdate (logIfErr prefix err).
Proof. unfold logIfErr. grows_auto. Qed.

Lemma grows_Sync (d : dynIP) : grows (Out:=Out) notTick (Sync d).
Proof. unfold Sync, apiUpdateDNSRecord. grows_auto. Qed.

(** The body receives no tick: it queries, calls and logs. *)
Lemma grows_body (env : gmap string string) (v : viper.Viper) (a : cf.API) :
  grows notTick (body env v a).
Proof.
  unfold body, newPublicIP, lookup, getRecord, Sync, logIfErr,
    netLookupIPAddr, apiZoneIDByName, apiDNSRecords, apiUpdateDNSRecord.
  grows_auto.
Qed.

(** The body after a successful discovery: locate, log, reconcile, log. *)
Lemma body_eq (env : gmap string string) (v : viper.Viper) (a : cf.API)
      (w w1 : world Out) (ip0 : net.IP) :
  newPublicIP w = (Return (Ok ip0), w1) ->
  let g := getRecord (fresh env v a ip0) w1 in
  let wl := snd (logIfErr "error getting remote ip: " (snd (fst g)) (snd g)) in
  let sy := Sync (fst (fst g)) wl in
  body env v a w
  = (None, snd (logIfErr "error syncing remote DNS: " (fst sy) (snd sy))).
Proof.
  intros Hip. simpl. unfold body, bind. rewrite Hip.
  destruct (getRecord (fresh env v a ip0) w1) as [[d' err] wg]. simpl.
  destruct (logIfErr "error getting remote ip: " err wg) as [u w2]. simpl.
  destruct (Sync d' w2) as [err' w3]. simpl.
  by destruct (logIfErr "error syncing remote DNS: " err' w3) as [[] w4].
Qed.

(** The update calls of one run of the body are those of its [Sync]. *)
Lemma body_updates (env : gmap string string) (v : viper.Viper) (a : cf.API)
      (w w1 : world Out) (ip0 : net.IP) :
  newPublicIP w = (Return (Ok ip0), w1) ->
  let g := getRecord (fresh env v a ip0) w1 in
  let w2 := snd (logIfErr "error getting remote ip: " (snd (fst g)) (snd g)) in
  fst (body env v a w) = None
  /\ filter (fun e => isUpdate e = true) (delta w (snd (body env v a w)))
     = filter (fun e => isUpdate e = true)
              (delta w2 (snd (Sync (fst (fst g)) w2))).
Proof.
  intros Hip. simpl. unfold body, bind. rewrite Hip.
  destruct (grows_delta notUpdate newPublicIP w grows_newPublicIP) as (E1 & F1).
  rewrite Hip in E1, F1. simpl in E1, F1.
  destruct (grows_delta notUpdate _ w1 (grows_getRecord (fresh env v a ip0)))
    as (E2 & F2).
  destruct (getRecord (fresh env v a ip0) w1) as [[d' err] wg]. simpl in *.
  destruct (grows_delta notUpdate _ wg
              (grows_logIfErr "error getting remote ip: " err)) as (E3 & F3).
  destruct (logIfErr "error getting remote ip: " err wg) as [u w2]. simpl in *.
  destruct (grows_delta notTick _ w2 (grows_Sync d')) as (E4 & _).
  destruct (Sync d' w2) as [err' w3]. simpl in *.
  destruct (grows_delta notUpdate _ w3
              (grows_logIfErr "error syncing remote DNS: " err')) as (E5 & F5).
  destruct (logIfErr "error syncing remote DNS: " err' w3) as [u' w4]. simpl in *.
  split; [done|]. unfold delta at 1.
  rewrite E5, E4, E3, E2, E1, <- !app_assoc, drop_app_length.
  rewrite !filter_app.
  by rewrite !(filter_notUpdate _ F1), !(filter_notUpdate _ F2),
       !(filter_notUpdate _ F3), !(filter_notUpdate _ F5), app_nil_r.
Qed.

(** The trace of the loop: one segment per tick received, in the order
    the ticker sent them. *)
Lemma loop_segments (env : gmap string string) (v : viper.Viper) (a : cf.API)
      (ticks : list Z) (w : world Out) :
  exists segs : list (Z * list event),
    trace (snd (loop env v a ticks w)) = trace w ++ concat (map segment segs)
    /\ Forall (fun s => Forall notTick (snd s)) segs
    /\ map fst segs = take (length segs) ticks.
Proof.
  revert w. induction ticks as [|t ticks IH]; intros w; simpl.
  - exists []. simpl. by rewrite app_nil_r.
  - unfold bind at 1. simpl. unfold bind.
    set (w' := {| outside := outside w; trace := trace w ++ [Tick t] |}).
    destruct (grows_delta notTick (body env v a) w' (grows_body env v a))
      as (E & F).
    destruct (body env v a w') as [[x|] w2]; simpl in *.
    + exists [(t, delta w' w2)]. simpl. rewrite E. subst w'. simpl.
      rewrite app_nil_r, <- app_assoc. repeat split; try done.
      by apply Forall_singleton.
    + destruct (IH w2) as (segs & E2 & F2 & P2).
      exists ((t, delta w' w2) :: segs). simpl. rewrite E2, E. subst w'. simpl.
      rewrite <- !app_assoc. simpl. repeat split; try done.
      * by apply Forall_cons.
      * by rewrite P2.
Qed.

Lemma NewTicker_take (d : Z) (k n : nat) :
  (k <= n)%nat -> take k (NewTicker d n) = NewTicker d k.
Proof.
  intros Hk. unfold NewTicker.
  change (map ?f ?l) with (f <$> l). rewrite <- fmap_take, take_seq.
  by rewrite Nat.min_l.
Qed.

End Scheduler.

(** ** The claims *)

(** C1: for discovered and recorded IPv4 addresses, [Sync] calls the
    provider's update operation exactly when the two differ as 4-byte
    addresses; when they are equal it leaves the world untouched (no call,
    no log line) and returns nil, whatever form (4 or 16 bytes) each
    address is held in; in particular a located record whose text parses
    to the discovered address, however it is written, causes no call. *)
Theorem C1_sync_updates_iff_addresses_differ
        {Out : Type} `{Network Out} `{net.Text} (d : dynIP) (w : world Out) :
  net.isIPv4 (dIP d) -> net.isIPv4 (rIP d) ->
  (updates (delta w (snd (Sync d w))) = 1%nat
     <-> net.To4 (dIP d) <> net.To4 (rIP d))
  /\ (updates (delta w (snd (Sync d w))) = 0%nat
     <-> net.To4 (dIP d) = net.To4 (rIP d))
  /\ (net.To4 (dIP d) = net.To4 (rIP d) -> Sync d w = (None, w))
  /\ (forall r : cf.DNSRecord,
        net.To4 (net.ParseIP (cf.Content r)) = net.To4 (dIP d) ->
        Sync (assign d r) w = (None, w)).
Proof.
  intros Hd Hr. pose proof (Equal_To4 _ _ Hd Hr) as Heq.
  rewrite Sync_updates.
  assert (forall r : cf.DNSRecord,
             net.To4 (net.ParseIP (cf.Content r)) = net.To4 (dIP d) ->
             Sync (assign d r) w = (None, w)) as Htext.
  { intros r Hsame. apply Sync_equal. simpl. rewrite Hsame.
    apply Equal_To4; [done | | by rewrite To4_idem].
    unfold net.isIPv4. by rewrite To4_idem. }
  destruct (net.Equal (dIP d) (rIP d)) eqn:E.
  - assert (net.To4 (dIP d) = net.To4 (rIP d)) as Hsame by by apply Heq.
    repeat split; try done. intros _. by apply Sync_equal.
  - assert (net.To4 (dIP d) <> net.To4 (rIP d)) as Hdiff.
    { intros Hsame. apply Heq in Hsame. congruence. }
    repeat split; try done.
Qed.

Lemma C1_sync_updates_iff_addresses_differ_witness :
  net.isIPv4 (dIP Fixtures.synced) /\ net.isIPv4 (rIP Fixtures.synced)
  /\ dIP Fixtures.synced <> rIP Fixtures.synced
  /\ Sync Fixtures.synced (Fake.start [] []) = (None, Fake.start [] []).
Proof.
  assert (net.isIPv4 (dIP Fixtures.synced)) as Hd by (vm_compute; reflexivity).
  assert (net.isIPv4 (rIP Fixtures.synced)) as Hr by (vm_compute; reflexivity).
  split; [exact Hd|]. split; [exact Hr|]. split; [vm_compute; discriminate|].
  apply (proj1 (proj2 (proj2 (C1_sync_updates_iff_addresses_differ
                                Fixtures.synced (Fake.start [] []) Hd Hr)))).
  vm_compute; reflexivity.
Defined.

(** C5: the scan of [getRecord] selects the first listed record whose name
    is string-equal to [aRecord + "." + zoneName] and selects nothing (the
    receiver keeps its zero record) when no name is equal; a record with
    any other name is invisible to it, in particular
    "home.sub.example.com" and "homex.example.com" for label "home" in zone
    "example.com", while "home.example.com" is selected. *)
Theorem C5_locator_selects_first_exact_match
        `{net.Text} (d : dynIP) (recs : list cf.DNSRecord) :
  (forall i r,
      recs !! i = Some r -> cf.Name r = aRecord d +:+ "." +:+ zoneName d ->
      (forall j r', (j < i)%nat -> recs !! j = Some r' ->
                    cf.Name r' <> aRecord d +:+ "." +:+ zoneName d) ->
      record (scan d recs) = r
      /\ rIP (scan d recs) = net.To4 (net.ParseIP (cf.Content r)))
  /\ ((forall r, r ∈ recs -> cf.Name r <> aRecord d +:+ "." +:+ zoneName d) ->
      scan d recs = d)
  /\ (forall pre post r,
         cf.Name r <> aRecord d +:+ "." +:+ zoneName d ->
         scan d (pre ++ r :: post) = scan d (pre ++ post))
  /\ (aRecord d = "home" -> zoneName d = "example.com" ->
      forall pre post r,
        (cf.Name r = "home.sub.example.com" \/ cf.Name r = "homex.example.com") ->
        scan d (pre ++ r :: post) = scan d (pre ++ post))
  /\ (aRecord d = "home" -> zoneName d = "example.com" ->
      forall post r,
        cf.Name r = "home.example.com" -> record (scan d (r :: post)) = r).
Proof.
  change (aRecord d +:+ "." +:+ zoneName d) with (fqdn d).
  split; [|split; [|split; [|split]]].
  - intros i r Hi Hn Hfirst. by rewrite (scan_first d recs i r Hi Hn Hfirst).
  - apply scan_none.
  - intros pre post r Hn. by apply scan_skip.
  - intros Ha Hz pre post r Hn. apply scan_skip.
    unfold fqdn. rewrite Ha, Hz. by destruct Hn as [-> | ->].
  - intros Ha Hz post r Hn. simpl. unfold fqdn. rewrite Ha, Hz, Hn.
    by rewrite bool_decide_eq_true_2.
Qed.

Lemma C5_locator_selects_first_exact_match_witness :
  record (scan (Fixtures.dyn0 "dyn" [])
               [Fixtures.recWww; Fixtures.recDyn; Fixtures.recDynDup])
  = Fixtures.recDyn
  /\ scan (Fixtures.dyn0 "home" []) [Fixtures.recSub; Fixtures.recHomex]
     = Fixtures.dyn0 "home" []
  /\ record (scan (Fixtures.dyn0 "home" [])
                  [Fixtures.recSub; Fixtures.recHomex; Fixtures.recHome])
     = Fixtures.recHome.
Proof.
  split; [|split].
  - apply (proj1 (C5_locator_selects_first_exact_match
                    (Fixtures.dyn0 "dyn" [])
                    [Fixtures.recWww; Fixtures.recDyn; Fixtures.recDynDup])
                 1%nat Fixtures.recDyn).
    + reflexivity.
    + reflexivity.
    + intros j r' Hj. destruct j as [|j]; [|lia].
      intros [= <-]. vm_compute. discriminate.
  - apply (proj1 (proj2 (C5_locator_selects_first_exact_match
                           (Fixtures.dyn0 "home" [])
                           [Fixtures.recSub; Fixtures.recHomex]))).
    intros r Hr. apply list_elem_of_In in Hr. simpl in Hr.
    destruct Hr as [<- | [<- | []]]; vm_compute; discriminate.
  - rewrite (proj1 (proj2 (proj2 (proj2 (C5_locator_selects_first_exact_match
               (Fixtures.dyn0 "home" []) [])))) eq_refl eq_refl
               [] [Fixtures.recHomex; Fixtures.recHome] Fixtures.recSub
               (or_introl eq_refl)).
    reflexivity.
Defined.

(** C6: when [Sync] finds the discovered address different from the
    recorded one, it makes exactly one update call; the call is keyed by
    the located record's zone identifier and record identifier, and the
    record it sends has the discovered address as content and is otherwise
    field for field the located record. *)
Theorem C6_update_payload_and_key
        {Out : Type} `{Network Out} `{net.Text} (d : dynIP) (w : world Out) :
  net.Equal (dIP d) (rIP d) = false ->
  exists rr,
    filter (fun e => isUpdate e = true) (delta w (snd (Sync d w)))
    = [CallUpdateDNSRecord (cf.ZoneID (record d)) (cf.ID (record d)) rr]
    /\ cf.Content rr = net.String (dIP d)
    /\ cf.ID rr = cf.ID (record d)
    /\ cf.Type_ rr = cf.Type_ (record d)
    /\ cf.Name rr = cf.Name (record d)
    /\ cf.Proxiable rr = cf.Proxiable (record d)
    /\ cf.Proxied rr = cf.Proxied (record d)
    /\ cf.TTL rr = cf.TTL (record d)
    /\ cf.Locked rr = cf.Locked (record d)
    /\ cf.ZoneID rr = cf.ZoneID (record d)
    /\ cf.ZoneName rr = cf.ZoneName (record d)
    /\ cf.CreatedOn rr = cf.CreatedOn (record d)
    /\ cf.ModifiedOn rr = cf.ModifiedOn (record d)
    /\ cf.Data rr = cf.Data (record d)
    /\ cf.Meta rr = cf.Meta (record d)
    /\ cf.Priority rr = cf.Priority (record d).
Proof.
  intros E. exists (payload d). split; [by apply Sync_differ_delta|].
  unfold payload. simpl. repeat split.
Qed.

Lemma C6_update_payload_and_key_witness :
  net.Equal (dIP Fixtures.drifted) (rIP Fixtures.drifted) = false
  /\ exists rr,
      filter (fun e => isUpdate e = true)
             (delta (Fake.start [] [Fixtures.recDyn])
                    (snd (Sync Fixtures.drifted (Fake.start [] [Fixtures.recDyn]))))
      = [CallUpdateDNSRecord "z1" "r1" rr]
      /\ cf.Content rr = "198.51.100.9".
Proof.
  assert (net.Equal (dIP Fixtures.drifted) (rIP Fixtures.drifted) = false) as E
    by (vm_compute; reflexivity).
  split; [exact E|].
  destruct (C6_update_payload_and_key
              Fixtures.drifted (Fake.start [] [Fixtures.recDyn]) E)
    as (rr & Hcall & Hcontent & _).
  exists rr. split; [exact Hcall | exact Hcontent].
Defined.

(** C9: reconciliation is idempotent.  Let the located record be the first
    one with the configured name, and let the discovered address be an
    IPv4 address whose text form reads back as the same address.  The first
    [Sync] makes exactly one update call if the addresses differ and none
    otherwise; once the provider holds what that call sent (the record at
    the same place in the listing replaced by the payload), locating again
    with the same discovered address and calling [Sync] a second time makes
    no update call and changes nothing. *)
Theorem C9_sync_idempotent
        {Out : Type} `{Network Out} `{net.Text}
        (d0 : dynIP) (recs : list cf.DNSRecord) (i : nat) (r : cf.DNSRecord)
        (w : world Out) :
  recs !! i = Some r -> cf.Name r = fqdn d0 ->
  (forall j r', (j < i)%nat -> recs !! j = Some r' -> cf.Name r' <> fqdn d0) ->
  net.isIPv4 (dIP d0) ->
  net.To4 (net.ParseIP (net.String (dIP d0))) = net.To4 (dIP d0) ->
  let d := scan d0 recs in
  let w1 := snd (Sync d w) in
  let recs' := if net.Equal (dIP d) (rIP d) then recs
               else <[i := payload d]> recs in
  let d' := scan d0 recs' in
  updates (delta w w1) = (if net.Equal (dIP d) (rIP d) then 0 else 1)%nat
  /\ Sync d' w1 = (None, w1)
  /\ updates (delta w1 (snd (Sync d' w1))) = 0%nat.
Proof.
  intros Hi Hn Hfirst Hv4 Hback d w1 recs' d'.
  assert (Sync d' w1 = (None, w1)) as Hsecond.
  { apply Sync_equal. subst d' recs'.
    destruct (net.Equal (dIP d) (rIP d)) eqn:E; [exact E|].
    assert (scan d0 (<[i:=payload d]> recs) = assign d0 (payload d)) as ->.
    { apply scan_first with (i := i).
      - apply list_lookup_insert_eq. by eapply lookup_lt_Some.
      - subst d. rewrite (scan_first d0 recs i r Hi Hn Hfirst). exact Hn.
      - intros j r' Hj. rewrite list_lookup_insert_ne by lia. by apply Hfirst. }
    simpl. subst d. rewrite (scan_first d0 recs i r Hi Hn Hfirst). simpl.
    rewrite Hback. apply Equal_To4; [done | | by rewrite To4_idem].
    unfold net.isIPv4. by rewrite To4_idem. }
  split; [apply Sync_updates|]. split; [exact Hsecond|].
  rewrite Hsecond. simpl. by rewrite delta_same.
Qed.

Lemma C9_sync_idempotent_witness :
  updates (delta (Fake.start [] [])
                 (snd (Sync Fixtures.drifted (Fake.start [] [])))) = 1%nat
  /\ updates
       (delta (snd (Sync Fixtures.drifted (Fake.start [] [])))
              (snd (Sync (scan (Fixtures.dyn0 "dyn" (net.IPv4 xc6 x33 x64 x09))
                               [Fixtures.recWww; payload Fixtures.drifted;
                                Fixtures.recDynDup])
                         (snd (Sync Fixtures.drifted (Fake.start [] []))))))
     = 0%nat.
Proof.
  pose proof (C9_sync_idempotent
                (Fixtures.dyn0 "dyn" (net.IPv4 xc6 x33 x64 x09))
                [Fixtures.recWww; Fixtures.recDyn; Fixtures.recDynDup]
                1%nat Fixtures.recDyn (Fake.start [] [])) as Hth.
  assert (forall j r', (j < 1)%nat ->
            [Fixtures.recWww; Fixtures.recDyn; Fixtures.recDynDup] !! j = Some r' ->
            cf.Name r' <> fqdn (Fixtures.dyn0 "dyn" (net.IPv4 xc6 x33 x64 x09)))
    as Hfirst.
  { intros j r' Hj. destruct j as [|j]; [|lia].
    intros [= <-]. vm_compute. discriminate. }
  specialize (Hth eq_refl eq_refl Hfirst).
  assert (net.isIPv4 (dIP (Fixtures.dyn0 "dyn" (net.IPv4 xc6 x33 x64 x09))))
    as Hv4 by (vm_compute; reflexivity).
  specialize (Hth Hv4 eq_refl).
  destruct Hth as (Hone & _ & Hzero).
  split; [exact Hone | exact Hzero].
Defined.

(** C4: a failed public-IP discovery is fatal.  At whatever tick the lookup
    returns an error, the loop logs the error and [main] returns: the trace
    ends with that log line and the ticks that follow are never received. *)
Theorem C4_discovery_failure_ends_process
        {Out : Type} `{Network Out} `{net.Text}
        (env : gmap string string) (v : viper.Viper) (a : cf.API)
        (pre post : list Z) (t : Z) (w w1 : world Out) (e : error) (s' : Out) :
  loop env v a pre w = (Blocked, w1) ->
  LookupIPAddr "resolver1.opendns.com" "myip.opendns.com" (outside w1)
  = (Err e, s') ->
  loop env v a (pre ++ t :: post) w =
    (Returned,
     {| outside := s';
        trace := trace w1
                 ++ [Tick t;
                     DNSQuery "resolver1.opendns.com" "myip.opendns.com";
                     Log ErrorLevel ("DNS lookup error: " +:+ e)] |}).
Proof.
  intros Hpre Hlookup. rewrite (loop_app env v a pre (t :: post) w w1 Hpre).
  simpl. unfold bind at 1. simpl. unfold body, bind.
  rewrite (newPublicIP_error _ e s') by exact Hlookup.
  simpl. by rewrite <- !app_assoc.
Qed.

Lemma C4_discovery_failure_ends_process_witness :
  fst (loop Fixtures.noEnv Fixtures.loaded Fake.client
            [300000000000; 600000000000; 900000000000]%Z
            (Fake.start [Fake.answer xc6 x33 x64 x09; Err "no such host";
                         Fake.answer xc6 x33 x64 x09]
                        [Fixtures.recDyn]))
  = Returned.
Proof.
  set (w := Fake.start [Fake.answer xc6 x33 x64 x09; Err "no such host";
                        Fake.answer xc6 x33 x64 x09] [Fixtures.recDyn]).
  set (r := loop Fixtures.noEnv Fixtures.loaded Fake.client [300000000000%Z] w).
  assert (r = (Blocked, snd r)) as Hpre by (vm_compute; reflexivity).
  assert (LookupIPAddr "resolver1.opendns.com" "myip.opendns.com" (outside (snd r))
          = (Err "no such host",
             snd (LookupIPAddr "resolver1.opendns.com" "myip.opendns.com"
                               (outside (snd r))))) as Hlookup
      by (vm_compute; reflexivity).
  change [300000000000; 600000000000; 900000000000]%Z
    with ([300000000000] ++ 600000000000 :: [900000000000])%Z.
  rewrite (C4_discovery_failure_ends_process
             Fixtures.noEnv Fixtures.loaded Fake.client
             [300000000000%Z] [900000000000%Z] 600000000000%Z
             w (snd r) "no such host" _ Hpre Hlookup).
  reflexivity.
Defined.

(** C10: nothing is reconciled at startup.  Whatever [main] does before the
    loop is logging; every query and provider call lies in a segment opened
    by the receipt of a tick, and the k-th tick (k = 1, 2, ...) is the one
    the ticker sends when k configured periods have elapsed.  With no tick
    delivered there is no segment at all. *)
Theorem C10_no_work_before_first_tick
        {Out : Type} `{Network Out} `{net.Text} `{time.Durations}
        (src : viper.ConfigSource) (env : gmap string string) (n : nat)
        (w : world Out) :
  exists (logs : list event) (segs : list (Z * list event)),
    trace (snd (main src env n w))
    = trace w ++ logs ++ concat (map segment segs)
    /\ Forall isLog logs
    /\ Forall (fun s => Forall notTick (snd s)) segs
    /\ (length segs <= n)%nat
    /\ (segs = []
        \/ exists v d,
            viper.ReadInConfig src setup = Ok v
            /\ time.ParseDuration (viper.GetString env v "tick") = Ok d
            /\ (0 < d)%Z
            /\ map fst segs = map (fun k => d * Z.of_nat k)%Z (seq 1 (length segs))).
Proof.
  unfold main.
  destruct (viper.ReadInConfig src setup) as [v|err] eqn:Hv.
  2:{ exists [Log FatalLevel ("configuration: " +:+ err)], [].
      simpl. rewrite ?app_nil_r. repeat split; auto with lia.
      by apply Forall_singleton. }
  unfold bind at 1. simpl.
  set (l0 := Log InfoLevel _).
  destruct (cf.New _ _) as [a|err].
  2:{ exists [l0; Log FatalLevel err], []. simpl.
      rewrite ?app_nil_r, <- ?app_assoc. repeat split; auto with lia.
      by repeat constructor. }
  destruct (time.ParseDuration _) as [d|err] eqn:Hd.
  2:{ exists [l0; Log FatalLevel err], []. simpl.
      rewrite ?app_nil_r, <- ?app_assoc. repeat split; auto with lia.
      by repeat constructor. }
  destruct (Z.leb_spec d 0) as [Hle|Hlt].
  { exists [l0], []. simpl. rewrite ?app_nil_r. repeat split; auto with lia.
    by apply Forall_singleton. }
  destruct (loop_segments env v a (NewTicker d n)
              {| outside := outside w; trace := trace w ++ [l0] |})
    as (segs & E & F & P).
  assert (length segs <= n)%nat as Hlen.
  { apply (f_equal length) in P.
    rewrite length_map, length_take in P. unfold NewTicker in P.
    rewrite length_map, length_seq in P. lia. }
  exists [l0], segs. rewrite E. simpl. rewrite <- app_assoc.
  split; [done|]. split; [by apply Forall_singleton|]. split; [done|].
  split; [done|]. right. exists v, d. repeat split; try done.
  rewrite P. by apply NewTicker_take.
Qed.

(** ** Where the code departs from the specification *)

Section Unlocated.

Context {Out : Type} `{Network Out} `{net.Text}.

(** A failing [getRecord] leaves the receiver as it was. *)
Lemma getRecord_error (d : dynIP) (w : world Out) (e : error) :
  snd (fst (getRecord d w)) = Some e -> fst (fst (getRecord d w)) = d.
Proof.
  unfold getRecord, bind, apiZoneIDByName, apiDNSRecords, call, ret.
  destruct (ZoneIDByName _ _ _) as [[zoneID|e1] s1]; simpl; [|done].
  destruct (DNSRecords _ _ _ _) as [[recs|e2] s2]; simpl; done.
Qed.

(** [Sync] on a receiver that holds no located record and a discovered
    address: one update call, keyed by two empty identifiers. *)
Lemma Sync_unlocated (d : dynIP) (w : world Out) :
  record d = cf.zero -> rIP d = [] -> dIP d <> [] ->
  filter (fun e => isUpdate e = true) (delta w (snd (Sync d w)))
  = [CallUpdateDNSRecord "" "" (cf.setContent cf.zero (net.String (dIP d)))].
Proof.
  intros Hr Hip Hd. rewrite Sync_differ_delta.
  - unfold updateCall, payload. by rewrite Hr.
  - rewrite Hip. by apply Equal_nil.
Qed.

End Unlocated.

(** C2 (the code does otherwise): in a tick where discovery succeeds with a
    non-empty address, both provider calls succeed and no listed record has
    the configured name, the body still makes an update call: [Sync] runs
    on the zero record, so the call carries an empty zone identifier, an
    empty record identifier and a record that is empty but for the
    discovered address. *)
Theorem C2_update_attempted_without_match
        {Out : Type} `{Network Out} `{net.Text}
        (env : gmap string string) (v : viper.Viper) (a : cf.API)
        (w : world Out) (ans : net.IPAddr) (more : list net.IPAddr)
        (zoneID : string) (recs : list cf.DNSRecord) (s1 s2 s3 : Out) :
  LookupIPAddr "resolver1.opendns.com" "myip.opendns.com" (outside w)
  = (Ok (ans :: more), s1) ->
  net.IPAddr_IP ans <> [] ->
  ZoneIDByName a (viper.GetString env v "dns.zone") s1 = (Ok zoneID, s2) ->
  DNSRecords a zoneID (cf.ofType "A") s2 = (Ok recs, s3) ->
  (forall r, r ∈ recs ->
             cf.Name r <> viper.GetString env v "dns.record" +:+ "."
                          +:+ viper.GetString env v "dns.zone") ->
  filter (fun e => isUpdate e = true) (delta w (snd (body env v a w)))
  = [CallUpdateDNSRecord "" ""
       (cf.setContent cf.zero (net.String (net.IPAddr_IP ans)))].
Proof.
  intros Hl Hip Hz Hr Hno.
  pose proof (newPublicIP_answer w _ s1 Hl) as Hp. simpl in Hp.
  destruct (body_updates env v a w _ _ Hp) as [_ ->].
  rewrite (getRecord_ok (fresh env v a (net.IPAddr_IP ans)) _ zoneID recs s2 s3)
    by done.
  simpl. rewrite scan_none by done.
  by apply Sync_unlocated.
Qed.

Lemma C2_update_attempted_without_match_witness :
  filter (fun e => isUpdate e = true)
         (delta (Fake.start [Fake.answer xc6 x33 x64 x09] [Fixtures.recWww])
                (snd (body Fixtures.noEnv Fixtures.loaded Fake.client
                           (Fake.start [Fake.answer xc6 x33 x64 x09]
                                       [Fixtures.recWww]))))
  = [CallUpdateDNSRecord "" "" (cf.setContent cf.zero "198.51.100.9")].
Proof.
  apply (C2_update_attempted_without_match
           Fixtures.noEnv Fixtures.loaded Fake.client
           (Fake.start [Fake.answer xc6 x33 x64 x09] [Fixtures.recWww])
           {| net.IPAddr_IP := net.IPv4 xc6 x33 x64 x09; net.Zone := "" |} []
           "z1" [Fixtures.recWww]
           {| Fake.answers := []; Fake.zones := [("example.com", "z1")];
              Fake.records := [Fixtures.recWww]; Fake.refuse := None |}
           {| Fake.answers := []; Fake.zones := [("example.com", "z1")];
              Fake.records := [Fixtures.recWww]; Fake.refuse := None |}
           {| Fake.answers := []; Fake.zones := [("example.com", "z1")];
              Fake.records := [Fixtures.recWww]; Fake.refuse := None |}).
  - vm_compute; reflexivity.
  - vm_compute; discriminate.
  - vm_compute; reflexivity.
  - vm_compute; reflexivity.
  - intros r Hr. apply list_elem_of_In in Hr. simpl in Hr.
    destruct Hr as [<- | []]. vm_compute. discriminate.
Defined.

Section LocateFailure.

Context {Out : Type} `{Network Out} `{net.Text}.

(** One run of the body in which locating fails: the error is logged and
    [Sync] runs on the zero record. *)
Lemma body_locate_failure
      (env : gmap string string) (v : viper.Viper) (a : cf.API)
      (w : world Out) (ans : net.IPAddr) (more : list net.IPAddr)
      (e : error) (s1 : Out) :
  LookupIPAddr "resolver1.opendns.com" "myip.opendns.com" (outside w)
  = (Ok (ans :: more), s1) ->
  net.IPAddr_IP ans <> [] ->
  match ZoneIDByName a (viper.GetString env v "dns.zone") s1 with
  | (Err e', _) => e' = e
  | (Ok zoneID, s2) => fst (DNSRecords a zoneID (cf.ofType "A") s2) = Err e
  end ->
  fst (body env v a w) = None
  /\ Log InfoLevel ("error getting remote ip: " +:+ e)
       ∈ delta w (snd (body env v a w))
  /\ filter (fun e => isUpdate e = true) (delta w (snd (body env v a w)))
     = [CallUpdateDNSRecord "" ""
          (cf.setContent cf.zero (net.String (net.IPAddr_IP ans)))].
Proof.
  intros Hl Hip Hfail.
  pose proof (newPublicIP_answer w _ s1 Hl) as Hp. simpl in Hp.
  destruct (grows_delta notUpdate newPublicIP w grows_newPublicIP) as (E1 & _).
  rewrite Hp in E1. simpl in E1.
  set (w1 := {| outside := s1; trace := _ |}) in Hp, E1.
  set (d := fresh env v a (net.IPAddr_IP ans)).
  assert (snd (fst (getRecord d w1)) = Some e) as Herr.
  { unfold getRecord, bind, apiZoneIDByName, apiDNSRecords, call, ret. simpl.
    destruct (ZoneIDByName _ _ _) as [[zoneID|e1] s2]; simpl; [|by subst].
    destruct (DNSRecords _ _ _ _) as [[recs|e2] s3]; simpl in *; congruence. }
  pose proof (getRecord_error d w1 e Herr) as Hd.
  destruct (body_updates env v a w w1 _ Hp) as [Hnone Hupd].
  fold d in Hupd. rewrite Herr, Hd in Hupd.
  split; [done|]. split.
  - rewrite (body_eq env v a w w1 _ Hp). fold d. simpl.
    destruct (grows_delta notUpdate _ w1 (grows_getRecord d)) as (E2 & _).
    destruct (getRecord d w1) as [[d' err] wg]. simpl in Herr, E2 |- *.
    subst err. unfold logIfErr at 2. unfold emit. simpl.
    set (wl := {| outside := outside wg; trace := _ |}).
    destruct (grows_delta notTick _ wl (grows_Sync d')) as (E4 & _).
    destruct (Sync d' wl) as [err' w3]. simpl in E4 |- *.
    destruct (grows_delta notUpdate _ w3
                (grows_logIfErr "error syncing remote DNS: " err')) as (E5 & _).
    unfold delta at 1. rewrite E5, E4. unfold wl at 1. simpl. rewrite E2, E1.
    rewrite <- !app_assoc, drop_app_length.
    set_solver.
  - rewrite Hupd. by apply Sync_unlocated.
Qed.

End LocateFailure.

(** C3 (the code does otherwise): in a tick where discovery succeeds with a
    non-empty address and the record-locating step fails, in the zone
    lookup or in the listing, the error is logged and the loop goes on to
    the next tick, but the tick does not end early: [Sync] still runs, on
    the zero record, and makes an update call with empty identifiers. *)
Theorem C3_locate_failure_still_syncs
        {Out : Type} `{Network Out} `{net.Text}
        (env : gmap string string) (v : viper.Viper) (a : cf.API)
        (t : Z) (ticks : list Z)
        (w : world Out) (ans : net.IPAddr) (more : list net.IPAddr)
        (e : error) (s1 : Out) :
  LookupIPAddr "resolver1.opendns.com" "myip.opendns.com" (outside w)
  = (Ok (ans :: more), s1) ->
  net.IPAddr_IP ans <> [] ->
  match ZoneIDByName a (viper.GetString env v "dns.zone") s1 with
  | (Err e', _) => e' = e
  | (Ok zoneID, s2) => fst (DNSRecords a zoneID (cf.ofType "A") s2) = Err e
  end ->
  let w0 := {| outside := outside w; trace := trace w ++ [Tick t] |} in
  Log InfoLevel ("error getting remote ip: " +:+ e)
    ∈ delta w0 (snd (body env v a w0))
  /\ filter (fun e => isUpdate e = true) (delta w0 (snd (body env v a w0)))
     = [CallUpdateDNSRecord "" ""
          (cf.setContent cf.zero (net.String (net.IPAddr_IP ans)))]
  /\ loop env v a (t :: ticks) w = loop env v a ticks (snd (body env v a w0)).
Proof.
  intros Hl Hip Hfail w0.
  destruct (body_locate_failure env v a w0 ans more e s1 Hl Hip Hfail)
    as (Hnone & Hlog & Hupd).
  split; [exact Hlog|]. split; [exact Hupd|].
  simpl. unfold bind at 1. simpl. fold w0. unfold bind.
  destruct (body env v a w0) as [[x|] w']; simpl in *; done.
Qed.

Lemma C3_locate_failure_still_syncs_witness :
  let w0 := {| outside := outside Fixtures.noZone;
               trace := trace Fixtures.noZone ++ [Tick 300000000000] |} in
  filter (fun e => isUpdate e = true)
         (delta w0 (snd (body Fixtures.noEnv Fixtures.loaded Fake.client w0)))
  = [CallUpdateDNSRecord "" "" (cf.setContent cf.zero "198.51.100.9")]
  /\ loop Fixtures.noEnv Fixtures.loaded Fake.client [300000000000%Z]
          Fixtures.noZone
     = (Blocked, snd (body Fixtures.noEnv Fixtures.loaded Fake.client w0)).
Proof.
  destruct (C3_locate_failure_still_syncs
              Fixtures.noEnv Fixtures.loaded Fake.client 300000000000%Z []
              Fixtures.noZone
              {| net.IPAddr_IP := net.IPv4 xc6 x33 x64 x09; net.Zone := "" |} []
              "Zone could not be found"
              {| Fake.answers := []; Fake.zones := [];
                 Fake.records := [Fixtures.recDyn]; Fake.refuse := None |})
    as (_ & Hupd & Hloop).
  - vm_compute; reflexivity.
  - vm_compute; discriminate.
  - vm_compute; reflexivity.
  - split; [exact Hupd | exact Hloop].
Defined.

(** C8 (the code does otherwise): [main] registers the default "@" under
    the key "record" but reads the label under the key "dns.record".  When
    neither the file nor the environment sets "dns.record", the label is
    the empty string, not "@", and the name looked for is "." followed by
    the zone name. *)
Theorem C8_record_default_not_applied
        (file : string) (kv env : gmap string string) :
  kv !! "dns.record" = None ->
  env !! "DYN_DNS.RECORD" = None ->
  exists v,
    viper.ReadInConfig (Ok (file, kv)) setup = Ok v
    /\ viper.defaults v !! "record" = Some "@"
    /\ viper.GetString env v "dns.record" = ""
    /\ forall (a : cf.API) (ip0 : net.IP),
        aRecord (fresh env v a ip0) = ""
        /\ fqdn (fresh env v a ip0) = "." +:+ viper.GetString env v "dns.zone".
Proof.
  intros Hkv Henv. eexists. split; [reflexivity|].
  assert (viper.GetString env
            {| viper.automaticEnvApplied := true; viper.envPrefix := "DYN";
               viper.defaults := <[viper.ToLower "record" := "@"]> ∅;
               viper.config := kv; viper.configFile := file |} "dns.record" = "")
    as Hget.
  { unfold viper.GetString, viper.find, viper.getEnv. simpl.
    change (viper.mergeWithEnvPrefix _ _) with "DYN_DNS.RECORD".
    change (viper.ToLower "dns.record") with "dns.record".
    rewrite Henv, Hkv. reflexivity. }
  split; [reflexivity|]. split; [exact Hget|].
  intros a ip0. unfold fqdn, fresh. simpl.
  change (viper.GetString env _ "dns.record") with
    (viper.GetString env
       {| viper.automaticEnvApplied := true; viper.envPrefix := "DYN";
          viper.defaults := <[viper.ToLower "record" := "@"]> ∅;
          viper.config := kv; viper.configFile := file |} "dns.record").
  by rewrite Hget.
Qed.

Lemma C8_record_default_not_applied_witness :
  viper.GetString Fixtures.noEnv Fixtures.loadedNoRecord "dns.record" = ""
  /\ viper.GetString Fixtures.noEnv Fixtures.loadedNoRecord "record" = "@".
Proof.
  destruct (C8_record_default_not_applied
              "/etc/dyn/config.yaml"
              (list_to_map [("cloudflare.apikey", "k");
                            ("cloudflare.email", "e@example.com");
                            ("dns.zone", "example.com"); ("tick", "5m")])
              Fixtures.noEnv)
    as (v & Hv & _ & Hget & _).
  - vm_compute; reflexivity.
  - vm_compute; reflexivity.
  - injection Hv as <-. split; [exact Hget | vm_compute; reflexivity].
Defined.

(** ** The text form of IPv4 addresses in the test double *)

Section Readback.

Import net Fake.

Lemma field_uitoa (b : byte) : field (uitoa b) = Some b.
Proof. destruct b; vm_compute; reflexivity. Qed.

Lemma split_uitoa_dot (b : byte) (rest : string) :
  split (uitoa b +:+ "." +:+ rest) "" = uitoa b :: split rest "".
Proof. destruct b; reflexivity. Qed.

Lemma split_uitoa (b : byte) : split (uitoa b) "" = [uitoa b].
Proof. destruct b; reflexivity. Qed.

(** Dotted decimal reads back as the address it was written from. *)
Lemma parseIPv4_dotted (a b c d : byte) :
  parseIPv4 (dotted [a; b; c; d]) = IPv4 a b c d.
Proof.
  unfold parseIPv4, dotted.
  rewrite !split_uitoa_dot, split_uitoa, !field_uitoa. reflexivity.
Qed.

(** Every IPv4 address, in either form, survives [String] then [ParseIP]
    then [To4]: the read-back premise of idempotence holds throughout the
    test double. *)
Lemma readback (ip : IP) :
  isIPv4 ip -> To4 (ParseIP (String ip)) = To4 ip.
Proof.
  intros Hv. unfold String.
  assert (length ip <> 0%nat) as Hne.
  { intros Hz. destruct ip; [|done]. by vm_compute in Hv. }
  rewrite (bool_decide_eq_false_2 _ Hne).
  rewrite (bool_decide_eq_true_2 _ Hv).
  unfold isIPv4, IPv4len in Hv.
  destruct (To4 ip) as [|a [|b [|c [|d [|? ?]]]]]; try discriminate.
  change (To4 (parseIPv4 (dotted [a; b; c; d])) = [a; b; c; d]).
  rewrite parseIPv4_dotted. reflexivity.
Qed.

End Readback.

(** ** Scenarios on the test double *)

(** Drift: one update call carrying the discovered address, a line
    reporting the sync, the provider's record rewritten, and nothing to do
    at the next tick. *)
Example scenario_drift :
  fst Fixtures.driftRun = Blocked
  /\ filter (fun e => isUpdate e = true) (trace (snd Fixtures.driftRun))
     = [CallUpdateDNSRecord "z1" "r1"
          (Fake.A "r1" "dyn.example.com" "198.51.100.9")]
  /\ Log InfoLevel
       "DNS A record (198.51.100.5) has been synched with Dynamic IP (198.51.100.9)"
       ∈ trace (snd Fixtures.driftRun)
  /\ Fake.records (outside (snd Fixtures.driftRun))
     = [Fixtures.recWww; Fake.A "r1" "dyn.example.com" "198.51.100.9"].
Proof.
  split; [vm_compute; reflexivity|]. split; [vm_compute; reflexivity|].
  split; [|vm_compute; reflexivity].
  apply list_elem_of_In. vm_compute.
  repeat first [left; reflexivity | right].
Qed.

(** Steady state: no update call and no out-of-sync line. *)
Example scenario_steady :
  fst Fixtures.steadyRun = Blocked
  /\ updates (trace (snd Fixtures.steadyRun)) = 0%nat
  /\ filter (fun e => Fixtures.isWarn e = true) (trace (snd Fixtures.steadyRun)) = [].
Proof. repeat split; vm_compute; reflexivity. Qed.

(** A refused update leaves the provider's record as it was, and the next
    tick tries again. *)
Example scenario_refused :
  fst Fixtures.refusedRun = Blocked
  /\ updates (trace (snd Fixtures.refusedRun)) = 2%nat
  /\ Fake.records (outside (snd Fixtures.refusedRun)) = [Fixtures.recDyn].
Proof. repeat split; vm_compute; reflexivity. Qed.

(** ** Further properties of the locator and the reconciler *)

Section MoreLocator.

Context {Out : Type} `{Network Out} `{net.Text}.

Lemma To4_length (ip : net.IP) : length (net.To4 ip) = 4%nat \/ net.To4 ip = [].
Proof.
  unfold net.To4, net.IPv4len, net.IPv6len, net.slice.
  case_bool_decide as H4; [by left|].
  case_bool_decide as H16; simpl; [|by right].
  destruct (_ && _ && _); [left|by right].
  rewrite length_take, length_drop. lia.
Qed.

Lemma string_length_app (s1 s2 : string) :
  String.length (s1 +:+ s2) = (String.length s1 + String.length s2)%nat.
Proof. induction s1 as [|c s1 IH]; simpl; [done|]. by rewrite IH. Qed.

(** The scan either assigns nothing or assigns a listed record of the
    wanted name. *)
Lemma scan_cases (d : dynIP) (recs : list cf.DNSRecord) :
  scan d recs = d
  \/ exists r, r ∈ recs /\ cf.Name r = fqdn d /\ scan d recs = assign d r.
Proof.
  rewrite scan_find.
  destruct (list_find _ recs) as [[i r]|] eqn:Hf; [right|by left].
  apply list_find_Some in Hf as (Hi & Hn & _).
  exists r. split; [by eapply list_elem_of_lookup_2|done].
Qed.

(** A discovered address that is not IPv4 equals no recorded address:
    [rIP] is nil or four bytes. *)
Lemma Equal_not_IPv4 (ip x : net.IP) :
  ip <> [] -> net.To4 ip = [] -> x = [] \/ length x = 4%nat ->
  net.Equal ip x = false.
Proof.
  intros Hne Hn4 [-> | Hx]; [by apply Equal_nil|].
  assert (length ip <> 4%nat) as H4.
  { intros H4. rewrite (To4_short ip H4) in Hn4. done. }
  unfold net.Equal, net.bytes_Equal, net.IPv4len, net.IPv6len. rewrite Hx.
  rewrite (bool_decide_eq_false_2 _ H4). simpl.
  case_bool_decide as H16; simpl; [|done].
  apply andb_false_iff. left. apply bool_decide_eq_false_2. intros Hp.
  revert Hn4. unfold net.To4, net.IPv4len, net.IPv6len.
  rewrite (bool_decide_eq_false_2 _ H4), (bool_decide_eq_true_2 _ H16).
  do 17 (destruct ip as [|? ip]; simpl in H16; try discriminate).
  revert Hp. unfold net.slice, net.v4InV6Prefix, net.isZeros. simpl.
  intros [= -> -> -> -> -> -> -> -> -> -> -> ->]. simpl.
  discriminate.
Qed.

End MoreLocator.

(** ** Further properties *)

(** X1: [getRecord] changes nothing of its receiver but [record] and [rIP],
    and those only together: either the receiver is returned as it was, or
    no error is returned, the record assigned has exactly the wanted name
    and [rIP] is [To4] of its parsed content (nil or four bytes).  An error
    always leaves the receiver untouched.  The function makes one or two
    provider calls, neither of them an update, and when the zone lookup
    fails it returns that error without asking for the listing. *)
Theorem X1_getRecord_invariants
        {Out : Type} `{Network Out} `{net.Text} (d : dynIP) (w : world Out) :
  let g := getRecord d w in
  let d' := fst (fst g) in
  api d' = api d /\ zoneName d' = zoneName d
  /\ aRecord d' = aRecord d /\ dIP d' = dIP d
  /\ (d' = d
      \/ (snd (fst g) = None
          /\ cf.Name (record d') = fqdn d
          /\ rIP d' = net.To4 (net.ParseIP (cf.Content (record d')))
          /\ (length (rIP d') = 4%nat \/ rIP d' = [])))
  /\ (snd (fst g) <> None -> d' = d)
  /\ Forall locateCall (delta w (snd g))
  /\ (1 <= length (delta w (snd g)) <= 2)%nat
  /\ (forall e s1,
         ZoneIDByName (api d) (zoneName d) (outside w) = (Err e, s1) ->
         snd (fst g) = Some e
         /\ delta w (snd g) = [CallZoneIDByName (zoneName d)]
         /\ outside (snd g) = s1).
Proof.
  unfold getRecord, bind, apiZoneIDByName, apiDNSRecords, call, ret.
  destruct (ZoneIDByName _ _ _) as [[zoneID|e1] s1] eqn:Hz; simpl.
  - assert (forall (x : dynIP * option error) (s2 : Out),
               delta w {| outside := s2;
                          trace := (trace w ++ [CallZoneIDByName (zoneName d)])
                                   ++ [CallDNSRecords zoneID (cf.ofType "A")] |}
               = [CallZoneIDByName (zoneName d);
                  CallDNSRecords zoneID (cf.ofType "A")]) as Hdelta.
    { intros _ s2. apply delta_app. simpl. by rewrite <- app_assoc. }
    destruct (DNSRecords _ _ _ _) as [[recs|e2] s2]; simpl;
      rewrite (Hdelta (d, None) s2).
    + destruct (scan_cases d recs) as [-> | (r & _ & Hn & ->)]; simpl.
      * split_and!; try done; try (simpl; lia); try (by left);
          by repeat constructor.
      * split_and!; try done; try (simpl; lia); try (by repeat constructor).
        right. split_and!; try done. apply To4_length.
    + split_and!; try done; try (simpl; lia); try (by left);
        by repeat constructor.
  - rewrite (delta_app w _ [CallZoneIDByName (zoneName d)]) by done.
    split_and!; try done; try (simpl; lia); try (by left);
      try (by repeat constructor).
    by intros e s [= -> ->].
Qed.

Lemma X1_getRecord_invariants_witness :
  let g := getRecord (Fixtures.dyn0 "dyn" (net.IPv4 xc6 x33 x64 x09))
                     Fixtures.noZone in
  snd (fst g) = Some "Zone could not be found"
  /\ delta Fixtures.noZone (snd g) = [CallZoneIDByName "example.com"]
  /\ fst (fst g) = Fixtures.dyn0 "dyn" (net.IPv4 xc6 x33 x64 x09).
Proof.
  pose proof (X1_getRecord_invariants
                (Fixtures.dyn0 "dyn" (net.IPv4 xc6 x33 x64 x09))
                Fixtures.noZone) as Hx.
  cbv zeta in Hx |- *.
  destruct Hx as (_ & _ & _ & _ & _ & Herr & _ & _ & Hzone).
  destruct (Hzone "Zone could not be found" (outside Fixtures.noZone) eq_refl)
    as (He & Hd & _).
  split; [exact He|]. split; [exact Hd|].
  apply Herr. intros Hnone. rewrite Hnone in He. discriminate He.
Defined.

(** X2: a record whose name is no longer than the zone name is never
    selected, whatever the label; in particular no label, "@" included,
    makes the scan select a record named exactly as the zone. *)
Theorem X2_zone_apex_never_selected
        `{net.Text} (d : dynIP) (pre post : list cf.DNSRecord) (r : cf.DNSRecord) :
  (String.length (cf.Name r) <= String.length (zoneName d))%nat ->
  scan d (pre ++ r :: post) = scan d (pre ++ post).
Proof.
  intros Hlen. apply scan_skip. intros Hn.
  apply (f_equal String.length) in Hn. unfold fqdn in Hn.
  rewrite !string_length_app in Hn. simpl in Hn. lia.
Qed.

Lemma X2_zone_apex_never_selected_witness :
  scan (Fixtures.dyn0 "@" [])
       ([Fixtures.recWww] ++ Fake.A "r0" "example.com" "192.0.2.9" :: [])
  = Fixtures.dyn0 "@" [].
Proof.
  rewrite (X2_zone_apex_never_selected
             (Fixtures.dyn0 "@" []) [Fixtures.recWww] []
             (Fake.A "r0" "example.com" "192.0.2.9")).
  - reflexivity.
  - vm_compute. lia.
Defined.

(** X3: a discovered address that is not an IPv4 address never compares
    equal to what [getRecord] leaves in [rIP].  On a receiver with nil
    [rIP], whatever the provider lists, [Sync] after the scan makes an
    update call: such a tick never reaches the steady state. *)
Theorem X3_non_IPv4_discovery_always_updates
        {Out : Type} `{Network Out} `{net.Text}
        (d : dynIP) (recs : list cf.DNSRecord) (w : world Out) :
  dIP d <> [] -> net.To4 (dIP d) = [] -> rIP d = [] ->
  net.Equal (dIP (scan d recs)) (rIP (scan d recs)) = false
  /\ updates (delta w (snd (Sync (scan d recs) w))) = 1%nat.
Proof.
  intros Hne Hn4 Hr.
  assert (net.Equal (dIP (scan d recs)) (rIP (scan d recs)) = false) as E.
  { destruct (scan_cases d recs) as [-> | (r & _ & _ & ->)]; simpl.
    - rewrite Hr. by apply Equal_nil.
    - apply Equal_not_IPv4; [done..|].
      destruct (To4_length (net.ParseIP (cf.Content r))); auto. }
  split; [exact E|]. by rewrite Sync_updates, E.
Qed.

Lemma X3_non_IPv4_discovery_always_updates_witness :
  updates (delta (Fake.start [] [])
                 (snd (Sync (scan (Fixtures.dyn0 "dyn" Fixtures.ip6)
                                  [Fixtures.recWww; Fixtures.recDyn])
                            (Fake.start [] []))))
  = 1%nat.
Proof.
  apply (X3_non_IPv4_discovery_always_updates
           (Fixtures.dyn0 "dyn" Fixtures.ip6)
           [Fixtures.recWww; Fixtures.recDyn] (Fake.start [] [])).
  - vm_compute; discriminate.
  - vm_compute; reflexivity.
  - reflexivity.
Defined.

(** X4: when the located record's content does not parse to an IPv4
    address, [rIP] is nil and [Sync] with any discovered address makes one
    update call, keyed by that record's identifiers, whose payload is the
    record with the discovered address as content. *)
Theorem X4_unparsable_content_is_rewritten
        {Out : Type} `{Network Out} `{net.Text}
        (d : dynIP) (r : cf.DNSRecord) (w : world Out) :
  dIP d <> [] -> net.To4 (net.ParseIP (cf.Content r)) = [] ->
  filter (fun e => isUpdate e = true) (delta w (snd (Sync (assign d r) w)))
  = [CallUpdateDNSRecord (cf.ZoneID r) (cf.ID r)
       (cf.setContent r (net.String (dIP d)))].
Proof.
  intros Hne Hc. rewrite Sync_differ_delta; [done|].
  simpl. rewrite Hc. by apply Equal_nil.
Qed.

Lemma X4_unparsable_content_is_rewritten_witness :
  filter (fun e => isUpdate e = true)
         (delta (Fake.start [] [])
                (snd (Sync (assign (Fixtures.dyn0 "dyn" (net.IPv4 xc6 x33 x64 x09))
                                   (Fake.A "r1" "dyn.example.com" "not an address"))
                           (Fake.start [] []))))
  = [CallUpdateDNSRecord "z1" "r1" (Fake.A "r1" "dyn.example.com" "198.51.100.9")].
Proof.
  apply (X4_unparsable_content_is_rewritten
           (Fixtures.dyn0 "dyn" (net.IPv4 xc6 x33 x64 x09))
           (Fake.A "r1" "dyn.example.com" "not an address") (Fake.start [] [])).
  - vm_compute; discriminate.
  - vm_compute; reflexivity.
Defined.

Section MoreScheduler.

Context {Out : Type} `{Network Out} `{net.Text} `{time.Durations}.

Lemma delta_trans (w w1 w2 : world Out) (l1 l2 : list event) :
  trace w1 = trace w ++ l1 -> trace w2 = trace w1 ++ l2 ->
  delta w w2 = l1 ++ l2.
Proof.
  intros E1 E2. apply delta_app. by rewrite E2, E1, app_assoc.
Qed.

Lemma updates_app (l1 l2 : list event) :
  updates (l1 ++ l2) = (updates l1 + updates l2)%nat.
Proof. unfold updates. by rewrite filter_app, length_app. Qed.

Lemma updates_quiet (l : list event) : Forall notUpdate l -> updates l = 0%nat.
Proof. intros F. unfold updates. by rewrite filter_notUpdate. Qed.

(** [newPublicIP] adds the one query to the trace, whatever comes back. *)
Lemma newPublicIP_trace (w : world Out) :
  trace (snd (newPublicIP w)) = trace w ++ [myipQuery].
Proof.
  unfold newPublicIP, lookup, bind, netLookupIPAddr, call, ret. simpl.
  destruct (LookupIPAddr _ _ _) as [[ips|e] s1]; simpl; [|done].
  by destruct ips.
Qed.

Lemma grows_getRecord_quiet (d : dynIP) :
  grows (Out:=Out) (fun e => notQuery e /\ notTick e /\ notUpdate e) (getRecord d).
Proof. unfold getRecord, apiZoneIDByName, apiDNSRecords. grows_auto. Qed.

Lemma grows_logIfErr_quiet (prefix : string) (err : option error) :
  grows (Out:=Out) (fun e => notQuery e /\ notTick e /\ notUpdate e)
        (logIfErr prefix err).
Proof. unfold logIfErr. grows_auto. Qed.

Lemma grows_Sync_quiet (d : dynIP) :
  grows (Out:=Out) (fun e => notQuery e /\ notTick e) (Sync d).
Proof. unfold Sync, apiUpdateDNSRecord. grows_auto. Qed.

(** One run of the body has the shape [bodyShape]. *)
Lemma body_shape (env : gmap string string) (v : viper.Viper) (a : cf.API)
      (w : world Out) :
  bodyShape (delta w (snd (body env v a w))).
Proof.
  pose proof (newPublicIP_trace w) as E1.
  destruct (newPublicIP w) as [[[ip0|e]|m] w1] eqn:Hn; simpl in E1.
  - rewrite (body_eq env v a w w1 ip0 Hn). simpl.
    set (d := fresh env v a ip0).
    destruct (grows_delta _ _ w1 (grows_getRecord_quiet d)) as (E2 & F2).
    destruct (getRecord d w1) as [[d' err] wg]. simpl in *.
    destruct (grows_delta _ _ wg
                (grows_logIfErr_quiet "error getting remote ip: " err))
      as (E3 & F3).
    destruct (logIfErr "error getting remote ip: " err wg) as [u wl]. simpl in *.
    destruct (grows_delta _ _ wl (grows_Sync_quiet d')) as (E4 & F4).
    pose proof (Sync_updates d' wl) as U4.
    destruct (Sync d' wl) as [err' w3]. simpl in *.
    destruct (grows_delta _ _ w3
                (grows_logIfErr_quiet "error syncing remote DNS: " err'))
      as (E5 & F5).
    destruct (logIfErr "error syncing remote DNS: " err' w3) as [u' w4].
    simpl in *.
    exists (delta w1 wg ++ delta wg wl ++ delta wl w3 ++ delta w3 w4).
    split.
    { apply delta_app. rewrite E5, E4, E3, E2, E1, <- !app_assoc. done. }
    rewrite !Forall_app, !updates_app.
    rewrite (updates_quiet (delta w1 wg)), (updates_quiet (delta wg wl)),
      (updates_quiet (delta w3 w4)), U4;
      [| eapply Forall_impl; [eassumption | intros ? ?; simpl in *; tauto] ..].
    split_and!;
      try (eapply Forall_impl; [eassumption | intros ? ?; simpl in *; tauto]).
    destruct (net.Equal _ _); lia.
  - exists [Log ErrorLevel e]. unfold body, bind. rewrite Hn. simpl.
    split; [apply delta_app; simpl; by rewrite E1, <- app_assoc|].
    split_and!; by repeat constructor.
  - exists []. unfold body, bind. rewrite Hn. simpl.
    split; [by apply delta_app|]. split_and!; by repeat constructor.
Qed.

(** The trace of the loop, segment by segment, each of the body's shape;
    a loop left waiting has received every tick. *)
Lemma loop_segments_shape (env : gmap string string) (v : viper.Viper)
      (a : cf.API) (ticks : list Z) (w : world Out) :
  exists segs : list (Z * list event),
    trace (snd (loop env v a ticks w)) = trace w ++ concat (map segment segs)
    /\ Forall (fun s => bodyShape (snd s)) segs
    /\ map fst segs = take (length segs) ticks
    /\ (fst (loop env v a ticks w) = Blocked -> length segs = length ticks).
Proof.
  revert w. induction ticks as [|t ticks IH]; intros w.
  - exists []. simpl. by rewrite app_nil_r.
  - set (w' := {| outside := outside w; trace := trace w ++ [Tick t] |}).
    assert (loop env v a (t :: ticks) w
            = match body env v a w' with
              | (Some x, w2) => (x, w2)
              | (None, w2) => loop env v a ticks w2
              end) as ->.
    { simpl. unfold bind at 1. simpl. fold w'. unfold bind.
      by destruct (body env v a w') as [[x|] w2]. }
    pose proof (body_shape env v a w') as Hs.
    pose proof (body_exit env v a w') as Hx.
    destruct (grows_delta notTick (body env v a) w' (grows_body env v a))
      as (E & _).
    destruct (body env v a w') as [[x|] w2]; simpl in *.
    + exists [(t, delta w' w2)]. simpl. rewrite E. subst w'. simpl.
      rewrite app_nil_r, <- app_assoc. split_and!; try done.
      * by apply Forall_singleton.
      * intros ->. done.
    + destruct (IH w2) as (segs & E2 & F2 & P2 & B2).
      exists ((t, delta w' w2) :: segs). simpl. rewrite E2, E. subst w'. simpl.
      rewrite <- !app_assoc. simpl. split_and!; try done.
      * by apply Forall_cons.
      * by rewrite P2.
      * intros Hb. by rewrite B2.
Qed.

(** Once [main] has left the loop, later ticks change nothing. *)
Lemma loop_stop (env : gmap string string) (v : viper.Viper) (a : cf.API)
      (pre rest : list Z) (w w1 : world Out) (x : exit) :
  loop env v a pre w = (x, w1) -> x <> Blocked ->
  loop env v a (pre ++ rest) w = (x, w1).
Proof.
  revert w. induction pre as [|t pre IH]; intros w; simpl.
  - unfold ret. intros [= <- <-]. done.
  - unfold bind at 1 3. simpl. unfold bind.
    destruct (body env v a _) as [[y|] w2]; [done|apply IH].
Qed.

End MoreScheduler.

Section Counting.

Context {Out : Type} `{Network Out} `{net.Text} `{time.Durations}.

Lemma count_none (f : event -> bool) (l : list event) :
  Forall (fun e => f e = false) l ->
  length (filter (fun e => f e = true) l) = 0%nat.
Proof.
  induction 1 as [|e l He _ IH]; [done|].
  rewrite filter_cons_False; [done|congruence].
Qed.

Lemma count_app (f : event -> bool) (l1 l2 : list event) :
  length (filter (fun e => f e = true) (l1 ++ l2))
  = (length (filter (fun e => f e = true) l1)
     + length (filter (fun e => f e = true) l2))%nat.
Proof. by rewrite filter_app, length_app. Qed.

Lemma notTick_isTick (l : list event) :
  Forall notTick l -> Forall (fun e => isTick e = false) l.
Proof. intros F. eapply Forall_impl; [exact F|]. by intros []. Qed.

Lemma isLog_counts (l : list event) :
  Forall isLog l ->
  updates l = 0%nat /\ queries l = 0%nat /\ ticksReceived l = 0%nat.
Proof.
  intros F. unfold updates, queries, ticksReceived.
  split_and!; apply count_none; eapply Forall_impl; try eassumption; by intros [].
Qed.

(** What the segments of a run add up to. *)
Lemma segments_counts (segs : list (Z * list event)) :
  Forall (fun s => bodyShape (snd s)) segs ->
  let t := concat (map segment segs) in
  (updates t <= length segs)%nat
  /\ queries t = length segs
  /\ ticksReceived t = length segs
  /\ Forall (fun e => isQuery e = true -> e = myipQuery) t.
Proof.
  induction 1 as [|[t l] segs Hs _ IH]; simpl in *.
  - by split_and!.
  - destruct Hs as (l' & -> & Fq & Ft & Hu).
    destruct IH as (IHu & IHq & IHt & IHa).
    set (rest := concat (map segment segs)) in *.
    change (Tick t :: (myipQuery :: l') ++ rest)
      with ([Tick t; myipQuery] ++ l' ++ rest).
    unfold updates, queries, ticksReceived in *.
    rewrite !count_app.
    rewrite (count_none isQuery l' Fq).
    rewrite (count_none isTick l' (notTick_isTick l' Ft)).
    change (length (filter (fun e => isUpdate e = true) [Tick t; myipQuery]))
      with 0%nat.
    change (length (filter (fun e => isQuery e = true) [Tick t; myipQuery]))
      with 1%nat.
    change (length (filter (fun e => isTick e = true) [Tick t; myipQuery]))
      with 1%nat.
    split_and!; try lia.
    apply Forall_app. split; [by repeat constructor|].
    apply Forall_app. split; [|done].
    eapply Forall_impl; [exact Fq|]. unfold notQuery. by intros e -> [=].
Qed.

(** One step of the loop. *)
Lemma loop_cons (env : gmap string string) (v : viper.Viper) (a : cf.API)
      (t : Z) (ticks : list Z) (w : world Out) :
  loop env v a (t :: ticks) w
  = match body env v a {| outside := outside w; trace := trace w ++ [Tick t] |} with
    | (Some x, w2) => (x, w2)
    | (None, w2) => loop env v a ticks w2
    end.
Proof.
  simpl. unfold bind at 1. simpl. unfold bind.
  by destruct (body env v a _) as [[x|] w2].
Qed.

(** The trace of [main]: startup log lines, then the loop's segments. *)
Lemma main_segments (src : viper.ConfigSource) (env : gmap string string)
      (n : nat) (w : world Out) :
  exists (logs : list event) (segs : list (Z * list event)),
    delta w (snd (main src env n w)) = logs ++ concat (map segment segs)
    /\ Forall isLog logs
    /\ Forall (fun s => bodyShape (snd s)) segs
    /\ (length segs <= n)%nat.
Proof.
  unfold main.
  destruct (viper.ReadInConfig src setup) as [v|err].
  2:{ exists [Log FatalLevel ("configuration: " +:+ err)], []. simpl.
      split; [by apply delta_app|]. split_and!; auto with lia.
      by apply Forall_singleton. }
  unfold bind at 1. simpl. set (l0 := Log InfoLevel _).
  destruct (cf.New _ _) as [a|err].
  2:{ exists [l0; Log FatalLevel err], []. simpl.
      split; [apply delta_app; simpl; by rewrite <- app_assoc|].
      split_and!; auto with lia. by repeat constructor. }
  destruct (time.ParseDuration _) as [d|err].
  2:{ exists [l0; Log FatalLevel err], []. simpl.
      split; [apply delta_app; simpl; by rewrite <- app_assoc|].
      split_and!; auto with lia. by repeat constructor. }
  destruct (d <=? 0)%Z.
  { exists [l0], []. simpl. split; [by apply delta_app|].
    split_and!; auto with lia. by apply Forall_singleton. }
  destruct (loop_segments_shape env v a (NewTicker d n)
              {| outside := outside w; trace := trace w ++ [l0] |})
    as (segs & E & F & P & _).
  exists [l0], segs. split.
  { apply delta_app. rewrite E. simpl. by rewrite <- app_assoc. }
  split_and!; [by apply Forall_singleton | done |].
  apply (f_equal length) in P.
  rewrite length_map, length_take in P. unfold NewTicker in P.
  rewrite length_map, length_seq in P. lia.
Qed.

End Counting.

Section Exits.

Context {Out : Type} `{Network Out} `{net.Text}.

(** How one run of the body can leave [main]. *)
Lemma body_exit_cases (env : gmap string string) (v : viper.Viper) (a : cf.API)
      (w : world Out) :
  match fst (body env v a w) with
  | None => True
  | Some Returned =>
      exists e, trace (snd (body env v a w))
                = trace w ++ [myipQuery;
                              Log ErrorLevel ("DNS lookup error: " +:+ e)]
  | Some (Panicked m) =>
      m = "runtime error: index out of range"
      /\ trace (snd (body env v a w)) = trace w ++ [myipQuery]
  | Some _ => False
  end.
Proof.
  destruct (LookupIPAddr "resolver1.opendns.com" "myip.opendns.com" (outside w))
    as [[ips|e] s1] eqn:Hl.
  - pose proof (newPublicIP_answer w ips s1 Hl) as Hp. destruct ips as [|x ips].
    + unfold body, bind. rewrite Hp. simpl. done.
    + by rewrite (body_eq env v a w _ _ Hp).
  - pose proof (newPublicIP_error w e s1 Hl) as Hp.
    unfold body, bind. rewrite Hp. simpl. exists e. by rewrite <- app_assoc.
Qed.

(** How the loop can leave [main]. *)
Lemma loop_exit_cases (env : gmap string string) (v : viper.Viper) (a : cf.API)
      (ticks : list Z) (w : world Out) :
  match fst (loop env v a ticks w) with
  | Blocked => True
  | Returned =>
      exists l e, trace (snd (loop env v a ticks w))
                  = l ++ [myipQuery; Log ErrorLevel ("DNS lookup error: " +:+ e)]
  | Panicked m =>
      m = "runtime error: index out of range"
      /\ exists l, trace (snd (loop env v a ticks w)) = l ++ [myipQuery]
  | Fatal => False
  end.
Proof.
  revert w. induction ticks as [|t ticks IH]; intros w; [done|].
  rewrite loop_cons.
  set (w' := {| outside := outside w; trace := trace w ++ [Tick t] |}).
  pose proof (body_exit_cases env v a w') as Hb.
  destruct (body env v a w') as [[x|] w2]; simpl in *; [|apply IH].
  destruct x as [| |m|]; try done.
  - destruct Hb as (e & ->). by exists (trace w ++ [Tick t]), e.
  - destruct Hb as (-> & ->). split; [done|]. by exists (trace w ++ [Tick t]).
Qed.

End Exits.

(** X5: [newPublicIP] makes exactly one call, the query for
    myip.opendns.com at resolver1.opendns.com, and its result is decided by
    that call alone: the address of the first answer (the others are
    ignored), a panic on an empty answer, or the resolver's error behind
    the prefix "DNS lookup error: ". *)
Theorem X5_newPublicIP_first_answer_wins
        {Out : Type} `{Network Out} (w : world Out) :
  let r := LookupIPAddr "resolver1.opendns.com" "myip.opendns.com" (outside w) in
  newPublicIP w
  = (match fst r with
     | Ok (x :: _) => Return (Ok (net.IPAddr_IP x))
     | Ok [] => Panic "runtime error: index out of range"
     | Err e => Return (Err ("DNS lookup error: " +:+ e))
     end,
     {| outside := snd r; trace := trace w ++ [myipQuery] |}).
Proof.
  simpl.
  destruct (LookupIPAddr "resolver1.opendns.com" "myip.opendns.com" (outside w))
    as [[ips|e] s1] eqn:Hl; simpl.
  - rewrite (newPublicIP_answer w ips s1 Hl). by destruct ips.
  - by rewrite (newPublicIP_error w e s1 Hl).
Qed.

(** X6: a tick in steady state is silent.  When discovery and both provider
    calls succeed and the first record of the configured name holds the
    discovered address, the body makes exactly the query and the two
    locating calls, writes no log line, makes no update call, and falls
    through to the next tick. *)
Theorem X6_steady_tick_is_silent
        {Out : Type} `{Network Out} `{net.Text}
        (env : gmap string string) (v : viper.Viper) (a : cf.API)
        (w : world Out) (ans : net.IPAddr) (more : list net.IPAddr)
        (zoneID : string) (recs : list cf.DNSRecord) (i : nat)
        (r : cf.DNSRecord) (s1 s2 s3 : Out) :
  LookupIPAddr "resolver1.opendns.com" "myip.opendns.com" (outside w)
  = (Ok (ans :: more), s1) ->
  ZoneIDByName a (viper.GetString env v "dns.zone") s1 = (Ok zoneID, s2) ->
  DNSRecords a zoneID (cf.ofType "A") s2 = (Ok recs, s3) ->
  recs !! i = Some r ->
  cf.Name r = viper.GetString env v "dns.record" +:+ "."
              +:+ viper.GetString env v "dns.zone" ->
  (forall j r', (j < i)%nat -> recs !! j = Some r' ->
                cf.Name r' <> viper.GetString env v "dns.record" +:+ "."
                              +:+ viper.GetString env v "dns.zone") ->
  net.Equal (net.IPAddr_IP ans) (net.To4 (net.ParseIP (cf.Content r))) = true ->
  body env v a w
  = (None,
     {| outside := s3;
        trace := trace w
                 ++ [myipQuery;
                     CallZoneIDByName (viper.GetString env v "dns.zone");
                     CallDNSRecords zoneID (cf.ofType "A")] |}).
Proof.
  intros Hl Hz Hr Hi Hn Hfirst Heq.
  pose proof (newPublicIP_answer w _ s1 Hl) as Hp. simpl in Hp.
  rewrite (body_eq env v a w _ _ Hp).
  rewrite (getRecord_ok (fresh env v a (net.IPAddr_IP ans)) _ zoneID recs s2 s3)
    by done.
  simpl.
  rewrite (scan_first (fresh env v a (net.IPAddr_IP ans)) recs i r) by done.
  rewrite Sync_equal by done. simpl. by rewrite <- app_assoc.
Qed.

Lemma X6_steady_tick_is_silent_witness :
  body Fixtures.noEnv Fixtures.loaded Fake.client Fixtures.steady
  = (None,
     {| outside := {| Fake.answers := [];
                      Fake.zones := [("example.com", "z1")];
                      Fake.records := [Fixtures.recWww; Fixtures.recSynced];
                      Fake.refuse := None |};
        trace := [myipQuery; CallZoneIDByName "example.com";
                  CallDNSRecords "z1" (cf.ofType "A")] |}).
Proof.
  apply (X6_steady_tick_is_silent
           Fixtures.noEnv Fixtures.loaded Fake.client Fixtures.steady
           {| net.IPAddr_IP := net.IPv4 xcb x00 x71 x07; net.Zone := "" |} []
           "z1" [Fixtures.recWww; Fixtures.recSynced] 1%nat Fixtures.recSynced
           {| Fake.answers := []; Fake.zones := [("example.com", "z1")];
              Fake.records := [Fixtures.recWww; Fixtures.recSynced];
              Fake.refuse := None |}
           {| Fake.answers := []; Fake.zones := [("example.com", "z1")];
              Fake.records := [Fixtures.recWww; Fixtures.recSynced];
              Fake.refuse := None |}).
  - vm_compute; reflexivity.
  - vm_compute; reflexivity.
  - vm_compute; reflexivity.
  - reflexivity.
  - vm_compute; reflexivity.
  - intros j r' Hj. destruct j as [|j]; [|lia].
    intros [= <-]. vm_compute. discriminate.
  - vm_compute; reflexivity.
Defined.

(** X7: a tick with drift.  When discovery and both provider calls succeed
    and the first record of the configured name holds another address, the
    body warns, makes one update call keyed by that record's identifiers
    with the record rewritten to the discovered address, and then logs
    either the confirmation (update accepted) or "error syncing remote
    DNS: " with the provider's error (update refused, and no confirmation).
    In both cases it falls through to the next tick. *)
Theorem X7_drift_tick_updates_once_and_reports
        {Out : Type} `{Network Out} `{net.Text}
        (env : gmap string string) (v : viper.Viper) (a : cf.API)
        (w : world Out) (ans : net.IPAddr) (more : list net.IPAddr)
        (zoneID : string) (recs : list cf.DNSRecord) (i : nat)
        (r : cf.DNSRecord) (res : option error) (s1 s2 s3 s4 : Out) :
  LookupIPAddr "resolver1.opendns.com" "myip.opendns.com" (outside w)
  = (Ok (ans :: more), s1) ->
  ZoneIDByName a (viper.GetString env v "dns.zone") s1 = (Ok zoneID, s2) ->
  DNSRecords a zoneID (cf.ofType "A") s2 = (Ok recs, s3) ->
  recs !! i = Some r ->
  cf.Name r = viper.GetString env v "dns.record" +:+ "."
              +:+ viper.GetString env v "dns.zone" ->
  (forall j r', (j < i)%nat -> recs !! j = Some r' ->
                cf.Name r' <> viper.GetString env v "dns.record" +:+ "."
                              +:+ viper.GetString env v "dns.zone") ->
  net.Equal (net.IPAddr_IP ans) (net.To4 (net.ParseIP (cf.Content r))) = false ->
  UpdateDNSRecord a (cf.ZoneID r) (cf.ID r)
                  (cf.setContent r (net.String (net.IPAddr_IP ans))) s3
  = (res, s4) ->
  let d := assign (fresh env v a (net.IPAddr_IP ans)) r in
  body env v a w
  = (None,
     {| outside := s4;
        trace := trace w
                 ++ [myipQuery;
                     CallZoneIDByName (viper.GetString env v "dns.zone");
                     CallDNSRecords zoneID (cf.ofType "A");
                     Log WarnLevel (warnMsg d);
                     CallUpdateDNSRecord
                       (cf.ZoneID r) (cf.ID r)
                       (cf.setContent r (net.String (net.IPAddr_IP ans)));
                     match res with
                     | None => Log InfoLevel (infoMsg d)
                     | Some e => Log InfoLevel ("error syncing remote DNS: " +:+ e)
                     end] |}).
Proof.
  intros Hl Hz Hr Hi Hn Hfirst Hneq Hu d.
  pose proof (newPublicIP_answer w _ s1 Hl) as Hp. simpl in Hp.
  rewrite (body_eq env v a w _ _ Hp).
  rewrite (getRecord_ok (fresh env v a (net.IPAddr_IP ans)) _ zoneID recs s2 s3)
    by done.
  simpl.
  rewrite (scan_first (fresh env v a (net.IPAddr_IP ans)) recs i r) by done.
  fold d. rewrite (Sync_differ d) by done.
  unfold payload. simpl. rewrite Hu. simpl.
  destruct res as [e|]; simpl; by rewrite <- !app_assoc.
Qed.

Lemma X7_drift_tick_updates_once_and_reports_witness :
  filter (fun e => isUpdate e = true)
         (trace (snd (body Fixtures.noEnv Fixtures.loaded Fake.client
                           (Fixtures.drifting (Some "HTTP status 500")))))
  = [CallUpdateDNSRecord "z1" "r1" (Fake.A "r1" "dyn.example.com" "198.51.100.9")]
  /\ last (trace (snd (body Fixtures.noEnv Fixtures.loaded Fake.client
                            (Fixtures.drifting (Some "HTTP status 500")))))
     = Some (Log InfoLevel "error syncing remote DNS: HTTP status 500").
Proof.
  rewrite (X7_drift_tick_updates_once_and_reports
             Fixtures.noEnv Fixtures.loaded Fake.client
             (Fixtures.drifting (Some "HTTP status 500"))
             {| net.IPAddr_IP := net.IPv4 xc6 x33 x64 x09; net.Zone := "" |} []
             "z1" [Fixtures.recWww; Fixtures.recDyn] 1%nat Fixtures.recDyn
             (Some "HTTP status 500")
             {| Fake.answers := []; Fake.zones := [("example.com", "z1")];
                Fake.records := [Fixtures.recWww; Fixtures.recDyn];
                Fake.refuse := Some "HTTP status 500" |}
             {| Fake.answers := []; Fake.zones := [("example.com", "z1")];
                Fake.records := [Fixtures.recWww; Fixtures.recDyn];
                Fake.refuse := Some "HTTP status 500" |}
             {| Fake.answers := []; Fake.zones := [("example.com", "z1")];
                Fake.records := [Fixtures.recWww; Fixtures.recDyn];
                Fake.refuse := Some "HTTP status 500" |}
             {| Fake.answers := []; Fake.zones := [("example.com", "z1")];
                Fake.records := [Fixtures.recWww; Fixtures.recDyn];
                Fake.refuse := Some "HTTP status 500" |}).
  - split; vm_compute; reflexivity.
  - vm_compute; reflexivity.
  - vm_compute; reflexivity.
  - vm_compute; reflexivity.
  - reflexivity.
  - vm_compute; reflexivity.
  - intros j r' Hj. destruct j as [|j]; [|lia].
    intros [= <-]. vm_compute. discriminate.
  - vm_compute; reflexivity.
  - vm_compute; reflexivity.
Defined.

(** X8: the loop composes.  Running it on ticks [pre] followed by [rest] is
    running it on [pre] and, if that leaves it waiting, on [rest] from the
    world reached; once [main] has returned or panicked, later ticks change
    neither the exit nor the world. *)
Theorem X8_loop_composes
        {Out : Type} `{Network Out} `{net.Text}
        (env : gmap string string) (v : viper.Viper) (a : cf.API)
        (pre rest : list Z) (w : world Out) :
  loop env v a (pre ++ rest) w
  = match loop env v a pre w with
    | (Blocked, w1) => loop env v a rest w1
    | (x, w1) => (x, w1)
    end.
Proof.
  destruct (loop env v a pre w) as [x w1] eqn:Hpre.
  destruct x; first [ by apply loop_app | by apply loop_stop ].
Qed.

(** X9: at most one update call per tick.  In any run of [main], the number
    of update calls is at most the number of ticks received, which is at
    most the number of ticks delivered. *)
Theorem X9_at_most_one_update_per_tick
        {Out : Type} `{Network Out} `{net.Text} `{time.Durations}
        (src : viper.ConfigSource) (env : gmap string string) (n : nat)
        (w : world Out) :
  (updates (delta w (snd (main src env n w)))
   <= ticksReceived (delta w (snd (main src env n w))))%nat
  /\ (ticksReceived (delta w (snd (main src env n w))) <= n)%nat.
Proof.
  destruct (main_segments src env n w) as (logs & segs & -> & Fl & Fs & Hn).
  destruct (isLog_counts logs Fl) as (Ul & _ & Tl).
  destruct (segments_counts segs Fs) as (Us & _ & Ts & _).
  unfold ticksReceived in *. rewrite updates_app, count_app. lia.
Qed.

(** X10: exactly one DNS query per tick received.  In any run of [main]
    the queries are as many as the ticks received, and every one of them
    asks resolver1.opendns.com for myip.opendns.com. *)
Theorem X10_one_query_per_tick
        {Out : Type} `{Network Out} `{net.Text} `{time.Durations}
        (src : viper.ConfigSource) (env : gmap string string) (n : nat)
        (w : world Out) :
  queries (delta w (snd (main src env n w)))
  = ticksReceived (delta w (snd (main src env n w)))
  /\ Forall (fun e => isQuery e = true -> e = myipQuery)
            (delta w (snd (main src env n w))).
Proof.
  destruct (main_segments src env n w) as (logs & segs & -> & Fl & Fs & Hn).
  destruct (isLog_counts logs Fl) as (_ & Ql & Tl).
  destruct (segments_counts segs Fs) as (_ & Qs & Ts & As).
  unfold queries, ticksReceived in *. rewrite !count_app.
  split; [lia|]. apply Forall_app. split; [|done].
  eapply Forall_impl; [exact Fl|]. by intros [].
Qed.

(** X11: once the loop runs, the process can end only through discovery.
    The loop never exits fatally; if [main] returns from it, the trace ends
    with the query and the error line "DNS lookup error: ..."; if it
    panics, the panic is the index out of range and the trace ends with
    the query.  No provider error, in locating or in updating, ends the
    loop. *)
Theorem X11_loop_ends_only_through_discovery
        {Out : Type} `{Network Out} `{net.Text}
        (env : gmap string string) (v : viper.Viper) (a : cf.API)
        (ticks : list Z) (w : world Out) :
  fst (loop env v a ticks w) <> Fatal
  /\ (fst (loop env v a ticks w) = Returned ->
      exists l e,
        trace (snd (loop env v a ticks w))
        = l ++ [myipQuery; Log ErrorLevel ("DNS lookup error: " +:+ e)])
  /\ (forall m,
         fst (loop env v a ticks w) = Panicked m ->
         m = "runtime error: index out of range"
         /\ exists l, trace (snd (loop env v a ticks w)) = l ++ [myipQuery]).
Proof.
  pose proof (loop_exit_cases env v a ticks w) as Hc.
  destruct (fst (loop env v a ticks w)) as [| |m|]; split_and!; try done.
  by intros m' [= <-].
Qed.

Lemma X11_loop_ends_only_through_discovery_witness :
  exists l e,
    trace (snd (loop Fixtures.noEnv Fixtures.loaded Fake.client
                     [300000000000; 600000000000]%Z
                     (Fake.start [Fake.answer xc6 x33 x64 x09; Err "no such host"]
                                 [Fixtures.recDyn])))
    = l ++ [myipQuery; Log ErrorLevel ("DNS lookup error: " +:+ e)].
Proof.
  apply (proj1 (proj2 (X11_loop_ends_only_through_discovery
                         Fixtures.noEnv Fixtures.loaded Fake.client
                         [300000000000; 600000000000]%Z
                         (Fake.start [Fake.answer xc6 x33 x64 x09;
                                      Err "no such host"]
                                     [Fixtures.recDyn])))).
  vm_compute; reflexivity.
Defined.

(** X12: provider failures never stop the loop.  As long as every lookup
    returns at least one address, the loop receives every tick delivered
    and is left waiting for the next, whatever the provider answers. *)
Theorem X12_loop_runs_while_discovery_succeeds
        {Out : Type} `{Network Out} `{net.Text} `{time.Durations}
        (env : gmap string string) (v : viper.Viper) (a : cf.API) :
  (forall s : Out, exists ans more s',
        LookupIPAddr "resolver1.opendns.com" "myip.opendns.com" s
        = (Ok (ans :: more), s')) ->
  forall (ticks : list Z) (w : world Out),
    fst (loop env v a ticks w) = Blocked
    /\ ticksReceived (delta w (snd (loop env v a ticks w))) = length ticks.
Proof.
  intros Hlive ticks w.
  assert (fst (loop env v a ticks w) = Blocked) as Hb.
  { revert w. induction ticks as [|t ticks IH]; intros w; [done|].
    rewrite loop_cons.
    set (w' := {| outside := outside w; trace := trace w ++ [Tick t] |}).
    destruct (Hlive (outside w')) as (ans & more & s' & Hl).
    pose proof (newPublicIP_answer w' _ s' Hl) as Hp. simpl in Hp.
    rewrite (body_eq env v a w' _ _ Hp). apply IH. }
  split; [exact Hb|].
  destruct (loop_segments_shape env v a ticks w) as (segs & E & F & _ & Hlen).
  destruct (segments_counts segs F) as (_ & _ & Ts & _).
  rewrite (delta_app w _ _ E), Ts. by apply Hlen.
Qed.

Lemma X12_loop_runs_while_discovery_succeeds_witness :
  fst (loop Fixtures.noEnv Fixtures.loaded Fake.client
            [300000000000; 600000000000; 900000000000]%Z Stub.start)
  = Blocked
  /\ ticksReceived
       (delta Stub.start
              (snd (loop Fixtures.noEnv Fixtures.loaded Fake.client
                         [300000000000; 600000000000; 900000000000]%Z
                         Stub.start)))
     = 3%nat.
Proof.
  apply (X12_loop_runs_while_discovery_succeeds
           Fixtures.noEnv Fixtures.loaded Fake.client).
  intros s. eexists _, _, _. reflexivity.
Defined.

(** X13: [main] exits fatally exactly when startup fails: the configuration
    cannot be read, the Cloudflare client cannot be built, or the tick
    duration does not parse.  In that case it has only logged: the outside
    is untouched and no tick was received, however many were to come. *)
Theorem X13_fatal_exactly_on_startup_failure
        {Out : Type} `{Network Out} `{net.Text} `{time.Durations}
        (src : viper.ConfigSource) (env : gmap string string) (n : nat)
        (w : world Out) :
  (fst (main src env n w) = Fatal
   <-> match viper.ReadInConfig src setup with
       | Err _ => True
       | Ok v =>
           match cf.New (viper.GetString env v "cloudflare.apiKey")
                        (viper.GetString env v "cloudflare.email") with
           | Err _ => True
           | Ok _ =>
               match time.ParseDuration (viper.GetString env v "tick") with
               | Err _ => True
               | Ok _ => False
               end
           end
       end)
  /\ (fst (main src env n w) = Fatal ->
      outside (snd (main src env n w)) = outside w
      /\ Forall isLog (delta w (snd (main src env n w)))).
Proof.
  unfold main.
  destruct (viper.ReadInConfig src setup) as [v|err].
  2:{ simpl. split; [done|]. intros _. split; [done|].
      rewrite (delta_app w _ [Log FatalLevel ("configuration: " +:+ err)])
        by done.
      by apply Forall_singleton. }
  unfold bind at 1 2 3 4. simpl. set (l0 := Log InfoLevel _).
  destruct (cf.New _ _) as [a|err].
  2:{ simpl. split; [done|]. intros _. split; [done|].
      rewrite (delta_app w _ [l0; Log FatalLevel err])
        by (simpl; by rewrite <- app_assoc).
      by repeat constructor. }
  destruct (time.ParseDuration _) as [d|err].
  2:{ simpl. split; [done|]. intros _. split; [done|].
      rewrite (delta_app w _ [l0; Log FatalLevel err])
        by (simpl; by rewrite <- app_assoc).
      by repeat constructor. }
  destruct (d <=? 0)%Z; [simpl; by split_and!|].
  pose proof (loop_exit_cases env v a (NewTicker d n)
                {| outside := outside w; trace := trace w ++ [l0] |}) as Hc.
  destruct (fst (loop env v a (NewTicker d n) _)); by split_and!.
Qed.

Lemma X13_fatal_exactly_on_startup_failure_witness :
  fst (main (Fake.file [("dns.zone", "example.com"); ("tick", "5m")])
            Fixtures.noEnv 3
            (Fake.start [Fake.answer xc6 x33 x64 x09] [Fixtures.recDyn]))
  = Fatal
  /\ outside (snd (main (Fake.file [("dns.zone", "example.com"); ("tick", "5m")])
                        Fixtures.noEnv 3
                        (Fake.start [Fake.answer xc6 x33 x64 x09]
                                    [Fixtures.recDyn])))
     = outside (Fake.start [Fake.answer xc6 x33 x64 x09] [Fixtures.recDyn]).
Proof.
  destruct (X13_fatal_exactly_on_startup_failure
              (Fake.file [("dns.zone", "example.com"); ("tick", "5m")])
              Fixtures.noEnv 3
              (Fake.start [Fake.answer xc6 x33 x64 x09] [Fixtures.recDyn]))
    as (Hiff & Hquiet).
  assert (fst (main (Fake.file [("dns.zone", "example.com"); ("tick", "5m")])
                    Fixtures.noEnv 3
                    (Fake.start [Fake.answer xc6 x33 x64 x09] [Fixtures.recDyn]))
          = Fatal) as Hf.
  { apply Hiff. vm_compute. exact I. }
  split; [exact Hf|]. exact (proj1 (Hquiet Hf)).
Defined.

(** ** Discovery under the resolver's contract *)


